(** * CrowdQA front end: confusion statistics, notes, join code and click gating

    A shallow embedding of the logic that lives in the React components of
    the repository:

    - [TADashboard.tsx]: [chartData], [stats] (mean, standard deviation,
      threshold, peak bins) and [notesWithTimestamps];
    - [SummaryReport.tsx]: [summary] (the same statistics), the [high] flag
      of the interval table and the "Peak Confusion" tile;
    - [JoinSession.tsx]: [handleInputChange] and [handleSubmit];
    - [StudentView.tsx]: [handleConfusionClick] and the disabled button;
    - [SessionCreator.tsx] and [App.tsx]: [handleGenerate],
      [handleStartSession], [handleCreateSession].

    Modelling conventions.

    - A JavaScript [number] that carries a measurement (click counts,
      percentages, the statistics derived from them) is a real number [R]:
      the arithmetic of the source is read with exact operations, the
      rounding of IEEE-754 doubles is not modelled.  [Math.max] of no
      argument is the one place where the source produces a non-finite
      value, and it has its own type [JS.number].
    - Millisecond timestamps ([Date.parse]) and minute offsets are integers
      [Z]; [Math.floor (x / 60000)] on them is [Z.div], which rounds towards
      minus infinity for a positive divisor.
    - Strings are [string]; a character is an [ascii].
    - Event handlers are finite command trees ([prog]) over the effects
      they perform ([fetch], [alert], state setters, callbacks); the answers
      of the outside world are supplied by an oracle. *)

From Stdlib Require Import String Ascii.
From Stdlib Require Import Reals Lra Lia ZArith List Bool.
From Stdlib Require Import Sorting.Sorted Sorting.Permutation.
From Stdlib Require Floats.PrimFloat Numbers.Cyclic.Int63.Uint63.
Import ListNotations.

Set Implicit Arguments.

(** ** JavaScript helpers *)

Module JS.

Local Open Scope R_scope.

(** [Array.prototype.reduce (f, init)]. *)
Definition reduce {A B : Type} (f : B -> A -> B) (init : B) (l : list A) : B :=
  fold_left f l init.

(** [Array.prototype.some]. *)
Definition some {A : Type} (p : A -> bool) (l : list A) : bool := existsb p l.

(** [a >= b] on finite numbers. *)
Definition geb (a b : R) : bool := if Rge_dec a b then true else false.

(** [a > b] on finite numbers. *)
Definition gtb (a b : R) : bool := if Rgt_dec a b then true else false.

(** A number that may be minus infinity: the value of [Math.max] over an
    argument list that may be empty. *)
Inductive number : Type :=
| NegInfinity : number
| Finite : R -> number.

(** One step of [Math.max]: the larger of the running maximum and the
    next argument. *)
Definition max2 (acc : number) (x : R) : number :=
  match acc with
  | NegInfinity => Finite x
  | Finite m => Finite (Rmax m x)
  end.

(** [Math.max (...xs)]: starts from minus infinity and scans the
    arguments from left to right. *)
Definition Math_max (xs : list R) : number := fold_left max2 xs NegInfinity.

(** [Array.prototype.sort (compareFn)].  ECMAScript requires the sort to
    be stable, so for a comparator that is a total preorder the result is
    determined: the sorted permutation in which elements that compare
    equal keep their order.  Insertion from the right computes it: an
    element goes in front of the first element it does not exceed. *)
Fixpoint sort_insert {A : Type} (compareFn : A -> A -> Z) (x : A) (l : list A)
    : list A :=
  match l with
  | [] => [x]
  | y :: l' =>
      if (compareFn x y <=? 0)%Z then x :: y :: l'
      else y :: sort_insert compareFn x l'
  end.

Fixpoint sort {A : Type} (compareFn : A -> A -> Z) (l : list A) : list A :=
  match l with
  | [] => []
  | x :: l' => sort_insert compareFn x (sort compareFn l')
  end.

(** The comparator [(a, b) => key(a) - key(b)]. *)
Definition byKey {A : Type} (key : A -> Z) (a b : A) : Z := (key a - key b)%Z.

(** Ascending order of the keys. *)
Definition ascendingBy {A : Type} (key : A -> Z) (a b : A) : Prop := (key a <= key b)%Z.

(** The order on numbers that may be minus infinity. *)
Definition le (a b : number) : Prop :=
  match a, b with
  | NegInfinity, _ => True
  | Finite _, NegInfinity => False
  | Finite x, Finite y => x <= y
  end.

End JS.

(** ** TADashboard.tsx *)

Module TADashboard.

Local Open Scope R_scope.

(** An element of [binRes.bins]. *)
Record BinRecord : Type := mkBin {
  bin_start_minute : R;
  bin_end_minute : R;
  click_count : R;
  unique_students : R;
  percentage : R
}.

(** An element of [chartData].  The label is the template string
    [`${bin_start_minute}-${bin_end_minute}`]; it is kept as the pair of
    numbers it is printed from. *)
Record ChartDatum : Type := mkDatum {
  minute : R;
  count : R;
  label : R * R
}.

Definition chartData (bins : list BinRecord) : list ChartDatum :=
  map (fun b => {| minute := bin_start_minute b;
                   count := click_count b;
                   label := (bin_start_minute b, bin_end_minute b) |}) bins.

Record Stats : Type := mkStats {
  totalClicks : nat;
  uniqueStudents : nat;
  mean : R;
  stdDev : R;
  threshold : R;
  peakBins : list ChartDatum
}.

(** [counts.length ? counts.reduce((a, b) => a + b, 0) / counts.length : 0] *)
Definition mean_of (counts : list R) : R :=
  match length counts with
  | O => 0
  | S _ => JS.reduce (fun a b => a + b) 0 counts / INR (length counts)
  end.

(** [counts.length
      ? counts.reduce((sum, val) => sum + Math.pow(val - mean, 2), 0) / counts.length
      : 0] *)
Definition variance_of (counts : list R) (mean : R) : R :=
  match length counts with
  | O => 0
  | S _ => JS.reduce (fun sum val => sum + (val - mean) ^ 2) 0 counts
           / INR (length counts)
  end.

(** The body of the [stats] memo. *)
Definition stats {Click : Type} (chartData : list ChartDatum)
    (clicks : list Click) (totalStudents : nat) : Stats :=
  let counts := map count chartData in
  let mean := mean_of counts in
  let variance := variance_of counts mean in
  let stdDev := sqrt variance in
  let threshold := mean + 1.2 * stdDev in
  let uniqueStudents := totalStudents in
  {| totalClicks := length clicks;
     uniqueStudents := uniqueStudents;
     mean := mean;
     stdDev := stdDev;
     threshold := threshold;
     peakBins := filter (fun d => JS.geb (count d) threshold) chartData |}.

(** The [session] prop. *)
Record Session : Type := mkSession {
  session_id : nat;
  session_code : string;
  course_name : string;
  duration_minutes : R;
  start_time : string
}.

(** An element of [noteRes.notes]. *)
Record NoteRecord : Type := mkNote {
  anon_id : nat;
  note : string;
  created_at : string
}.

(** [{ ...n, minutesElapsed }]: the note with one more field. *)
Record NoteWithTimestamp : Type := mkTimedNote {
  note_fields : NoteRecord;
  minutesElapsed : Z
}.

Section Notes.

(** [Date.parse] on the date strings of the server: the milliseconds
    since the epoch.  (Strings that do not parse give [NaN] in
    JavaScript; those are outside the model.) *)
Variable Date_parse : string -> Z.

(** The body of the [notesWithTimestamps] memo. *)
Definition notesWithTimestamps (notes : list NoteRecord) (session : Session)
    : list NoteWithTimestamp :=
  let start := Date_parse (start_time session) in
  JS.sort (fun a b => (minutesElapsed a - minutesElapsed b)%Z)
    (map (fun n =>
            {| note_fields := n;
               minutesElapsed := ((Date_parse (created_at n) - start) / 60000)%Z |})
         notes).

End Notes.

End TADashboard.

(** ** SummaryReport.tsx *)

Module SummaryReport.

Local Open Scope R_scope.

Record SessionMeta : Type := mkSessionMeta {
  session_id : nat;
  session_code : string;
  course_name : string;
  duration_minutes : R;
  ta_name : string;
  start_time : string
}.

Record BinRecord : Type := mkBin {
  bin_start_minute : R;
  bin_end_minute : R;
  click_count : R;
  unique_students : R;
  percentage_of_bin : R
}.

(** An element of [summary.data]. *)
Record Datum : Type := mkDatum {
  minute : R;
  label : R * R;
  count : R;
  uniqueStudents : R;
  percentage : R
}.

Record Summary : Type := mkSummary {
  data : list Datum;
  threshold : R;
  totalStudents : R
}.

(** The body of the [summary] memo; [None] is [null]. *)
Definition summary (session : option SessionMeta) (bins : list BinRecord)
    (totalStudents : R) : option Summary :=
  match session with
  | None => None
  | Some _ =>
      let data :=
        map (fun b => {| minute := bin_start_minute b;
                         label := (bin_start_minute b, bin_end_minute b);
                         count := click_count b;
                         uniqueStudents := unique_students b;
                         percentage := percentage_of_bin b |}) bins in
      let counts := map count data in
      let mean :=
        match length counts with
        | O => 0
        | S _ => JS.reduce (fun a b => a + b) 0 counts / INR (length counts)
        end in
      let variance :=
        match length counts with
        | O => 0
        | S _ => JS.reduce (fun sum val => sum + (val - mean) ^ 2) 0 counts
                 / INR (length counts)
        end in
      let stdDev := sqrt variance in
      let threshold := mean + 1.2 * stdDev in
      Some {| data := data; threshold := threshold; totalStudents := totalStudents |}
  end.

(** [setBins(analysisRes.bins || [])] in [loadAll]: the bins of the
    analysis, or no bin when the answer has none. *)
Definition loadedBins (analysisBins : option (list BinRecord)) : list BinRecord :=
  match analysisBins with
  | Some bins => bins
  | None => []
  end.

(** "Avg per Student":
    [summary.totalStudents > 0 ? totalClicks / summary.totalStudents : 0]
    (before [toFixed]). *)
Definition avgPerStudent (s : Summary) (totalClicks : R) : R :=
  if JS.gtb (totalStudents s) 0 then totalClicks / totalStudents s else 0.

(** "Peak Confusion": [Math.max(...summary.data.map(d => d.percentage))]
    (before [toFixed]). *)
Definition peakConfusion (s : Summary) : JS.number :=
  JS.Math_max (map percentage (data s)).

(** [const high = d.count >= summary.threshold] in the interval table;
    the same test colours the bars of the chart. *)
Definition high (s : Summary) (d : Datum) : bool :=
  JS.geb (count d) (threshold s).

Inductive Badge : Type := High | Normal | Clear.

(** The status cell of a table row. *)
Definition status (s : Summary) (d : Datum) : Badge :=
  if high s d then High
  else if JS.gtb (count d) 0 then Normal
  else Clear.

(** "Key Insights": the peaks, or [None] for the message that no
    significant spike was detected. *)
Definition keyInsights (s : Summary) : option (list Datum) :=
  if JS.some (fun d => JS.geb (count d) (threshold s)) (data s)
  then Some (filter (fun d => JS.geb (count d) (threshold s)) (data s))
  else None.

End SummaryReport.

(** ** Event handlers as command trees *)

Module Handler.

Section Prog.

(** [E X] is an effect whose answer has type [X]. *)
Variable E : Type -> Type.

Inductive prog (A : Type) : Type :=
| Ret : A -> prog A
| Vis : forall X : Type, E X -> (X -> prog A) -> prog A.

Arguments Ret {A} _.
Arguments Vis {A X} _ _.

Fixpoint bind {A B : Type} (p : prog A) (f : A -> prog B) : prog B :=
  match p with
  | Ret a => f a
  | Vis e k => Vis e (fun x => bind (k x) f)
  end.

Definition trigger {X : Type} (e : E X) : prog X := Vis e (fun x => Ret x).

(** An effect that was performed, without its answer. *)
Definition action : Type := {X : Type & E X}.

(** The outside world: it answers every effect. *)
Definition oracle : Type := forall X : Type, E X -> X.

(** Runs a handler against the outside world; returns the effects it
    performed, in order, and its result. *)
Fixpoint run {A : Type} (w : oracle) (p : prog A) : list action * A :=
  match p with
  | Ret a => ([], a)
  | Vis e k =>
      let (tr, a) := run w (k (w _ e)) in
      (existT _ _ e :: tr, a)
  end.

Definition trace {A : Type} (w : oracle) (p : prog A) : list action :=
  fst (run w p).

End Prog.

Arguments Ret {E A} _.
Arguments Vis {E A X} _ _.
Arguments trigger {E X} _.

Declare Scope prog_scope.
Delimit Scope prog_scope with prog.
Notation "x <- c1 ;; c2" := (bind c1 (fun x => c2))
  (at level 61, c1 at next level, right associativity) : prog_scope.
Notation "c1 ;; c2" := (bind c1 (fun _ => c2))
  (at level 61, right associativity) : prog_scope.

(** What [await fetch(...)] followed by [await res.json()] can give: the
    promise rejects with an error that has a [message] (network failure,
    body that is not JSON), or there is a response with its [ok] flag and
    its decoded body. *)
Inductive FetchResult (D : Type) : Type :=
| Rejected : string -> FetchResult D
| Response : bool -> D -> FetchResult D.

Arguments Rejected {D} _.
Arguments Response {D} _ _.

(** [s || d] on strings: the empty string is falsy. *)
Definition or_default (s d : string) : string :=
  match s with
  | EmptyString => d
  | _ => s
  end.

End Handler.

(** ** JoinSession.tsx *)

Module JoinSession.

Import Handler.
Local Open Scope string_scope.
Local Open Scope prog_scope.

(** The argument of [onJoinSuccess]. *)
Record JoinData : Type := mkJoinData {
  session_id : nat;
  anon_id : nat;
  course_name : string;
  duration_minutes : nat;
  start_time : option string;
  end_time : option string
}.

(** [\d]: a decimal digit. *)
Definition is_digit (c : ascii) : bool :=
  let n := nat_of_ascii c in (48 <=? n)%nat && (n <=? 57)%nat.

(** [s.replace(/\D/g, '')]: every character that is not a decimal digit
    is removed.  (A JavaScript string is a sequence of UTF-16 code units
    and a [string] a sequence of bytes; a digit is one unit in both, and
    every unit of any other character is a non-digit in both.) *)
Definition strip_non_digits (s : string) : string :=
  string_of_list_ascii (filter is_digit (list_ascii_of_string s)).

(** [s.slice(0, n)]. *)
Definition slice0 (n : nat) (s : string) : string :=
  string_of_list_ascii (firstn n (list_ascii_of_string s)).

Inductive effect : Type -> Type :=
| preventDefault : effect unit
| setCode : string -> effect unit
| setError : string -> effect unit
(** [fetch(`.../api/sessions/${code}/join`, { method: "POST", ... })] *)
| fetchJoin : string -> effect (FetchResult JoinData)
| onJoinSuccess : JoinData -> effect unit
| console_error : effect unit.

(** [handleSubmit], in a render where the state [code] has this value. *)
Definition handleSubmit (code : string) : prog effect unit :=
  trigger preventDefault ;;
  trigger (setError "") ;;
  if negb (String.length code =? 4)%nat then
    trigger (setError "Session code must be 4 digits")
  else
    res <- trigger (fetchJoin code) ;;
    match res with
    | Rejected _ =>
        trigger console_error ;;
        trigger (setError "Server error — please try again")
    | Response ok data =>
        if negb ok then trigger (setError "Invalid or expired session code")
        else trigger (onJoinSuccess data)
    end.

(** [handleInputChange], for an event whose [target.value] is [value]. *)
Definition handleInputChange (value : string) : prog effect unit :=
  let value := slice0 4 (strip_non_digits value) in
  trigger (setCode value) ;;
  trigger (setError "").

(** The component state. *)
Record State : Type := mkState {
  code : string;
  error : string
}.

(** [useState('')] twice. *)
Definition initial : State := {| code := ""; error := "" |}.

(** The state setters among the effects, applied to the state. *)
Definition apply (st : State) (a : action effect) : State :=
  match projT2 a with
  | setCode v => {| code := v; error := error st |}
  | setError m => {| code := code st; error := m |}
  | _ => st
  end.

(** What the user does to the form: the input fires [onChange] with a new
    raw value (typing, deleting, pasting), or the form is submitted. *)
Inductive UIEvent : Type :=
| Change : string -> UIEvent
| Submit : UIEvent.

Definition handler (st : State) (ev : UIEvent) : prog effect unit :=
  match ev with
  | Change value => handleInputChange value
  | Submit => handleSubmit (code st)
  end.

(** One event: the handler of the current render runs, then its state
    updates are applied.  Returns the new state and the effects. *)
Definition step (w : oracle effect) (st : State) (ev : UIEvent)
    : State * list (action effect) :=
  let tr := trace w (handler st ev) in
  (fold_left apply tr st, tr).

(** A whole session of events: final state and all effects, in order. *)
Fixpoint steps (w : oracle effect) (st : State) (evs : list UIEvent)
    : State * list (action effect) :=
  match evs with
  | [] => (st, [])
  | ev :: evs' =>
      let (st1, tr1) := step w st ev in
      let (st2, tr2) := steps w st1 evs' in
      (st2, (tr1 ++ tr2)%list)
  end.

(** The submit button: [disabled={code.length !== 4}]. *)
Definition submitDisabled (st : State) : bool :=
  negb (String.length (code st) =? 4)%nat.

(** The string consists of decimal digits only. *)
Definition isDigits (s : string) : bool :=
  forallb is_digit (list_ascii_of_string s).

(** The shape of a join code: exactly four decimal digits. *)
Definition isJoinCode (s : string) : bool :=
  (String.length s =? 4)%nat && isDigits s.

(** The invariant of the form: the code holds at most four digits. *)
Definition code_ok (st : State) : Prop :=
  (String.length (code st) <= 4)%nat /\ isDigits (code st) = true.

(** The join codes of the join requests among some effects. *)
Definition joinRequests (tr : list (action effect)) : list string :=
  flat_map (fun a => match projT2 a with
                     | fetchJoin c => [c]
                     | _ => []
                     end) tr.

End JoinSession.

(** ** StudentView.tsx *)

Module StudentView.

Import Handler.
Local Open Scope string_scope.
Local Open Scope prog_scope.

(** The [session] prop. *)
Record Session : Type := mkSession {
  session_id : nat;
  session_code : string;
  course_name : string;
  anon_id : nat
}.

(** The body of the answer to a click: [student_click_count] on success,
    [error] when the server refuses. *)
Record ClickData : Type := mkClickData {
  student_click_count : nat;
  click_error : option string
}.

(** The body of [GET /api/sessions/:id], as far as the poll reads it:
    [is_active] when it is a boolean. *)
Record SessionData : Type := mkSessionData {
  is_active : option bool
}.

Inductive effect : Type -> Type :=
| alert : string -> effect unit
| console_error : effect unit
(** [POST /api/sessions/${session_id}/click] with body [{ anon_id }] *)
| fetchClick : nat -> nat -> effect (FetchResult ClickData)
(** [POST /api/sessions/${session_id}/notes] with body [{ anon_id, note }] *)
| fetchNote : nat -> nat -> string -> effect (FetchResult unit)
(** [GET /api/sessions/${session_id}] *)
| fetchSession : nat -> effect (FetchResult SessionData)
(** the [onConfusionClick] prop *)
| onConfusionClick : nat -> effect unit
| setShowFeedback : bool -> effect unit
| setNote : string -> effect unit
| setActive : bool -> effect unit
(** [setTimeout(() => setShowFeedback(false), 2000)] *)
| setTimeout_hideFeedback : effect unit.

(** The component state. *)
Record State : Type := mkState {
  note : string;
  showFeedback : bool;
  active : bool
}.

(** The initial state.  The prop [isSessionActive] defaults to [true]
    when it is not passed, so [isSessionActive ?? false] is the prop. *)
Definition initial (isSessionActive : option bool) : State :=
  let isSessionActive := match isSessionActive with Some b => b | None => true end in
  {| note := ""; showFeedback := false; active := isSessionActive |}.

Section Handlers.

(** [String.prototype.trim]. *)
Variable trim : string -> string.

Variable session : Session.

(** The [catch] block of [handleConfusionClick], for an error with
    this [message]. *)
Definition catchClickError (message : string) : prog effect unit :=
  trigger console_error ;;
  let msg := or_default message "Error sending feedback" in
  trigger (alert msg).

(** Steps 3 and 4 of [handleConfusionClick]. *)
Definition afterSubmission (clickData : ClickData) : prog effect unit :=
  trigger (onConfusionClick (student_click_count clickData)) ;;
  trigger (setShowFeedback true) ;;
  trigger (setNote "") ;;
  trigger setTimeout_hideFeedback.

(** [handleConfusionClick], in a render with this state. *)
Definition handleConfusionClick (st : State) : prog effect unit :=
  if negb (active st) then
    trigger (alert "Session is not active. You cannot submit feedback yet.")
  else
    clickRes <- trigger (fetchClick (session_id session) (anon_id session)) ;;
    match clickRes with
    | Rejected message => catchClickError message
    | Response ok clickData =>
        if negb ok then
          let message :=
            or_default (match click_error clickData with
                        | Some e => e
                        | None => ""
                        end) "Server rejected click" in
          catchClickError message
        else if negb (String.eqb (trim (note st)) "") then
          noteRes <- trigger (fetchNote (session_id session) (anon_id session)
                                        (trim (note st))) ;;
          match noteRes with
          | Rejected message => catchClickError message
          | Response _ _ => afterSubmission clickData
          end
        else afterSubmission clickData
    end.

(** [check], the poll that runs at mount and every 3000 ms; [mounted]
    is the flag at the time the answer arrives. *)
Definition check (mounted : bool) : prog effect unit :=
  res <- trigger (fetchSession (session_id session)) ;;
  match res with
  | Rejected _ => Ret tt
  | Response ok data =>
      if negb ok then Ret tt
      else if negb mounted then Ret tt
      else match is_active data with
           | Some b => trigger (setActive b)
           | None => Ret tt
           end
  end.

End Handlers.

(** The confusion button: [disabled={!active}]. *)
Definition buttonDisabled (st : State) : bool := negb (active st).

(** The state setters among the effects, applied to the state. *)
Definition apply (st : State) (a : action effect) : State :=
  match projT2 a with
  | setShowFeedback b => {| note := note st; showFeedback := b; active := active st |}
  | setNote n => {| note := n; showFeedback := showFeedback st; active := active st |}
  | setActive b => {| note := note st; showFeedback := showFeedback st; active := b |}
  | _ => st
  end.

(** A network request. *)
Definition isRequest (a : action effect) : bool :=
  match projT2 a with
  | fetchClick _ _ | fetchNote _ _ _ | fetchSession _ => true
  | _ => false
  end.

(** A click event handed to the parent ([onConfusionClick]). *)
Definition isClickEvent (a : action effect) : bool :=
  match projT2 a with
  | onConfusionClick _ => true
  | _ => false
  end.

End StudentView.

(** ** The session registry of the server *)

Module SessionRegistry.

Local Open Scope Z_scope.

Inductive Lifecycle : Type := NotStarted | Active | Ended.

Inductive Error : Type := ValidationError | NotFoundError | InvalidStateError.

(** Modelled from the spec: the session record of the Session Registry
    (section 3, "Session"); the server that owns it is not among the
    sources.  [date] is the date given to [createSession]. *)
Record Session : Type := mkSession {
  identifier : nat;
  code : string;
  course : string;
  date : string;
  duration : Z;
  creator : string;
  state : Lifecycle;
  start_timestamp : option Z;
  end_timestamp : option Z
}.

(** Modelled from the spec: the registry is the collection of all session
    records; sessions are never deleted. *)
Definition Registry : Type := list Session.

(** Modelled from the spec: [getSession(sessionId)] of section 4.1. *)
Definition getSession (sessionId : nat) (reg : Registry) : option Session :=
  find (fun s => (identifier s =? sessionId)%nat) reg.

(** Modelled from the spec: storing an updated record in place of the one
    with the same identifier. *)
Definition store (s' : Session) (reg : Registry) : Registry :=
  map (fun s => if (identifier s =? identifier s')%nat then s' else s) reg.

(** Modelled from the spec: [createSession] of section 4.1, with the
    observed duration bound 15..180; the code generator is outside the
    model and its output is an argument. *)
Definition createSession (newCode course date : string) (durationMinutes : Z)
    (creatorName : string) (reg : Registry) : Registry * (Session + Error) :=
  if (15 <=? durationMinutes) && (durationMinutes <=? 180) then
    let s := {| identifier := length reg; code := newCode; course := course;
                date := date; duration := durationMinutes;
                creator := creatorName; state := NotStarted;
                start_timestamp := None; end_timestamp := None |} in
    ((reg ++ [s])%list, inl s)
  else (reg, inr ValidationError).

(** Modelled from the spec: [activateSession] of section 4.1:
    "transitions not-started->active, stamping start_timestamp = now();
    fails with InvalidStateError if not in not-started state; fails with
    NotFoundError if the id is unknown".  [now] is the reading of the
    clock at the call. *)
Definition activateSession (now : Z) (sessionId : nat) (reg : Registry)
    : Registry * (Session + Error) :=
  match getSession sessionId reg with
  | None => (reg, inr NotFoundError)
  | Some s =>
      match state s with
      | NotStarted =>
          let s' := {| identifier := identifier s; code := code s;
                       course := course s; date := date s;
                       duration := duration s; creator := creator s;
                       state := Active;
                       start_timestamp := Some now;
                       end_timestamp := end_timestamp s |} in
          (store s' reg, inl s')
      | _ => (reg, inr InvalidStateError)
      end
  end.

(** Modelled from the spec: [endSession] of section 4.1: "transitions
    active->ended, stamping end_timestamp = now(); fails with
    InvalidStateError otherwise". *)
Definition endSession (now : Z) (sessionId : nat) (reg : Registry)
    : Registry * (Session + Error) :=
  match getSession sessionId reg with
  | None => (reg, inr NotFoundError)
  | Some s =>
      match state s with
      | Active =>
          let s' := {| identifier := identifier s; code := code s;
                       course := course s; date := date s;
                       duration := duration s; creator := creator s;
                       state := Ended;
                       start_timestamp := start_timestamp s;
                       end_timestamp := Some now |} in
          (store s' reg, inl s')
      | _ => (reg, inr InvalidStateError)
      end
  end.

(** The session [sessionId] carries the start stamp [now] and has left the
    not-started state. *)
Definition stamped (sessionId : nat) (now : Z) (reg : Registry) : Prop :=
  exists s, getSession sessionId reg = Some s /\
            start_timestamp s = Some now /\ state s <> NotStarted.

(** No session that is still not started carries a start stamp. *)
Definition unstampedUntilStarted (reg : Registry) : Prop :=
  forall s, In s reg -> state s = NotStarted -> start_timestamp s = None.

(** A call to the registry, with the clock reading at the call. *)
Inductive Call : Type :=
| Create : string -> string -> string -> Z -> string -> Call
| Activate : Z -> nat -> Call
| End : Z -> nat -> Call.

Definition call (c : Call) (reg : Registry) : Registry :=
  match c with
  | Create newCode course date d creator =>
      fst (createSession newCode course date d creator reg)
  | Activate now id => fst (activateSession now id reg)
  | End now id => fst (endSession now id reg)
  end.

(** Any sequence of calls, applied in order. *)
Definition calls (cs : list Call) (reg : Registry) : Registry :=
  fold_left (fun r c => call c r) cs reg.

End SessionRegistry.

(** ** SessionCreator.tsx and App.tsx *)

Module SessionCreator.

Import Handler.
Local Open Scope string_scope.
Local Open Scope prog_scope.

(** [BackendSession]; [App.tsx] declares the two times as
    [string | null], and [None] is [null]. *)
Record BackendSession : Type := mkBackendSession {
  session_id : nat;
  session_code : string;
  course_name : string;
  recitation_date : string;
  duration_minutes : Z;
  ta_name : string;
  start_time : option string;
  end_time : option string
}.

(** The body of the answer to [POST /api/sessions]. *)
Record CreateData : Type := mkCreateData {
  created_id : nat;
  created_code : string
}.

(** The body of the answer to [PUT /api/sessions/:id/start]:
    "server returns { success: true, session: { ... } }"; [None] is a
    body without [session]. *)
Record StartData : Type := mkStartData {
  session : option BackendSession
}.

Inductive effect : Type -> Type :=
| preventDefault : effect unit
(** [POST /api/sessions] with course name, date, duration and TA name *)
| fetchCreate : string -> string -> Z -> string -> effect (FetchResult CreateData)
(** [PUT /api/sessions/${session_id}/start] *)
| fetchStart : nat -> effect (FetchResult StartData)
| setGeneratedSession : option BackendSession -> effect unit
(** the [onCreateSession] prop *)
| onCreateSession : BackendSession -> effect unit
| console_error : effect unit
| alert : string -> effect unit.

Section Handlers.

(** [parseInt] on the duration field. *)
Variable parseInt : string -> Z.
(** [new Date(s).getTime()]: the instant an ISO string denotes. *)
Variable Date_getTime : string -> Z.
(** [new Date(t).toISOString()]. *)
Variable toISOString : Z -> string.

(** [handleGenerate], in a render with these form fields. *)
Definition handleGenerate (courseName date duration taName : string)
    : prog effect unit :=
  trigger preventDefault ;;
  res <- trigger (fetchCreate courseName date (parseInt duration) taName) ;;
  match res with
  | Rejected _ =>
      trigger console_error ;; trigger (alert "Error creating session.")
  | Response ok data =>
      if negb ok then
        trigger console_error ;; trigger (alert "Error creating session.")
      else
        let startTime := Date_getTime (date ++ "T00:00:00Z") in
        let endTime := (startTime + parseInt duration * 60000)%Z in
        trigger (setGeneratedSession (Some
          {| session_id := created_id data;
             session_code := created_code data;
             course_name := courseName;
             recitation_date := date;
             duration_minutes := parseInt duration;
             ta_name := taName;
             start_time := Some (toISOString startTime);
             end_time := Some (toISOString endTime) |}))
  end.

(** [handleStartSession], in a render with this [generatedSession]. *)
Definition handleStartSession (generatedSession : option BackendSession)
    : prog effect unit :=
  match generatedSession with
  | None => Ret tt
  | Some generated =>
      res <- trigger (fetchStart (session_id generated)) ;;
      match res with
      | Rejected _ =>
          trigger console_error ;; trigger (alert "Error starting session")
      | Response ok data =>
          if negb ok then
            trigger console_error ;; trigger (alert "Error starting session")
          else
            let sessionFromServer :=
              match session data with
              | Some s => s
              | None => generated
              end in
            trigger (onCreateSession sessionFromServer)
      end
  end.

End Handlers.

(** The sessions handed to [onCreateSession] among some effects. *)
Definition createdSessions (tr : list (action effect)) : list BackendSession :=
  flat_map (fun a => match projT2 a with
                     | onCreateSession s => [s]
                     | _ => []
                     end) tr.

End SessionCreator.

Module App.

Inductive View : Type :=
| home | student_join | student_active | ta_create | ta_dashboard | ta_summary.

(** The part of the state of [App] that the instructor's flow uses. *)
Record State : Type := mkState {
  view : View;
  currentSession : option SessionCreator.BackendSession;
  summarySessionId : option nat
}.

Definition initial : State :=
  {| view := home; currentSession := None; summarySessionId := None |}.

(** [handleCreateSession]. *)
Definition handleCreateSession (session : SessionCreator.BackendSession)
    (st : State) : State :=
  {| view := ta_dashboard;
     currentSession := Some session;
     summarySessionId := summarySessionId st |}.

(** The [session] prop of [<TADashboard session={currentSession} .../>] in
    the view ['ta-dashboard'].  [None] when nothing is rendered
    ([!currentSession]) and when [start_time] is [null], where
    [Date.parse] gives [NaN], which the model of the dashboard leaves
    out. *)
Definition dashboardSession (st : State) : option TADashboard.Session :=
  match view st, currentSession st with
  | ta_dashboard, Some s =>
      match SessionCreator.start_time s with
      | Some t =>
          Some {| TADashboard.session_id := SessionCreator.session_id s;
                  TADashboard.session_code := SessionCreator.session_code s;
                  TADashboard.course_name := SessionCreator.course_name s;
                  TADashboard.duration_minutes :=
                    IZR (SessionCreator.duration_minutes s);
                  TADashboard.start_time := t |}
      | None => None
      end
  | _, _ => None
  end.

End App.

(** ** The start request, answered by the registry *)

Module Transport.

Import Handler.

Section Start.

Variable toISOString : Z -> string.

(** Modelled from the spec: the session as the transport layer writes
    it in an answer; the times are ISO strings, [null] while unset. *)
Definition backendSession (s : SessionRegistry.Session)
    : SessionCreator.BackendSession :=
  {| SessionCreator.session_id := SessionRegistry.identifier s;
     SessionCreator.session_code := SessionRegistry.code s;
     SessionCreator.course_name := SessionRegistry.course s;
     SessionCreator.recitation_date := SessionRegistry.date s;
     SessionCreator.duration_minutes := SessionRegistry.duration s;
     SessionCreator.ta_name := SessionRegistry.creator s;
     SessionCreator.start_time :=
       option_map toISOString (SessionRegistry.start_timestamp s);
     SessionCreator.end_time :=
       option_map toISOString (SessionRegistry.end_timestamp s) |}.

(** Modelled from the spec: [PUT /api/sessions/:id/start] calls
    [activateSession] at clock reading [now]; success is answered with
    [{ success: true, session }] (as [handleStartSession] notes), an
    error of the registry with a status that is not [ok]. *)
Definition putStart (now : Z) (reg : SessionRegistry.Registry) (sessionId : nat)
    : SessionRegistry.Registry * FetchResult SessionCreator.StartData :=
  match SessionRegistry.activateSession now sessionId reg with
  | (reg', inl s) =>
      (reg', Response true {| SessionCreator.session := Some (backendSession s) |})
  | (reg', inr _) =>
      (reg', Response false {| SessionCreator.session := None |})
  end.

(** The world seen by [handleStartSession] when the server holds [reg]
    and the clock reads [now]; requests to other routes are answered
    by [other]. *)
Definition world (now : Z) (reg : SessionRegistry.Registry)
    (other : oracle SessionCreator.effect) : oracle SessionCreator.effect :=
  fun X e =>
    match e in SessionCreator.effect X return X -> X with
    | SessionCreator.fetchStart id => fun _ => snd (putStart now reg id)
    | _ => fun x => x
    end (other X e).

End Start.

End Transport.

(** ** Population statistics, as the specification words them *)

Module Population.

Local Open Scope R_scope.

(** The sum of a list of numbers. *)
Fixpoint sum (l : list R) : R :=
  match l with
  | [] => 0
  | x :: l' => x + sum l'
  end.

(** Population mean: the sum of the values over their number. *)
Definition mean (l : list R) : R := sum l / INR (length l).

(** The sum of the squared deviations from [c]. *)
Definition squaredDeviations (c : R) (l : list R) : R :=
  sum (map (fun x => (x - c) * (x - c)) l).

(** Population variance: the mean squared deviation from the mean, with
    the number of values (not one less) as the divisor. *)
Definition variance (l : list R) : R :=
  squaredDeviations (mean l) l / INR (length l).

(** Population standard deviation. *)
Definition stdDev (l : list R) : R := sqrt (variance l).

(** The threshold of the specification: mean + 1.2 standard deviations. *)
Definition threshold (l : list R) : R := mean l + 1.2 * stdDev l.

(** [bump i delta l]: the value at index [i] raised by [delta], the other
    values as they are (a list shorter than [i] is unchanged). *)
Fixpoint bump (i : nat) (delta : R) (l : list R) : list R :=
  match l, i with
  | [], _ => []
  | x :: l', O => (x + delta) :: l'
  | x :: l', S i' => x :: bump i' delta l'
  end.

End Population.

(** ** Raising one bin, and the flag of a bin by its index *)

Module Bins.

Local Open Scope R_scope.

(** The bins with the click count of bin [i] raised by [delta] and every
    other bin as it is. *)
Fixpoint raiseCount (i : nat) (delta : R) (bins : list TADashboard.BinRecord)
    : list TADashboard.BinRecord :=
  match bins, i with
  | [], _ => []
  | b :: bins', O =>
      {| TADashboard.bin_start_minute := TADashboard.bin_start_minute b;
         TADashboard.bin_end_minute := TADashboard.bin_end_minute b;
         TADashboard.click_count := TADashboard.click_count b + delta;
         TADashboard.unique_students := TADashboard.unique_students b;
         TADashboard.percentage := TADashboard.percentage b |} :: bins'
  | b :: bins', S i' => b :: raiseCount i' delta bins'
  end.

(** The threshold that the dashboard computes for these bins. *)
Definition thresholdOf (bins : list TADashboard.BinRecord) : R :=
  TADashboard.threshold
    (TADashboard.stats (TADashboard.chartData bins) (@nil unit) 0).

(** The mean that the dashboard computes for these bins. *)
Definition meanOf (bins : list TADashboard.BinRecord) : R :=
  TADashboard.mean
    (TADashboard.stats (TADashboard.chartData bins) (@nil unit) 0).

(** Bin [i] passes the filter of [peakBins]. *)
Definition flagged (bins : list TADashboard.BinRecord) (i : nat) : bool :=
  match nth_error (TADashboard.chartData bins) i with
  | Some d => JS.geb (TADashboard.count d) (thresholdOf bins)
  | None => false
  end.

End Bins.

(** ** The statistics in binary64 arithmetic *)

Module Float64.

Import PrimFloat.

(** [counts.length] as a number. *)
Definition lengthOf (counts : list float) : float :=
  of_uint63 (Uint63.of_Z (Z.of_nat (length counts))).

(** The threshold of [stats], every operation read as the IEEE-754
    binary64 operation that JavaScript performs; [Math.pow (x, 2)] is the
    rounded square, and the literal [1.2] is the nearest binary64 value,
    [0x1.3333333333333p+0].  Used to run the examples of the real-number
    model in the arithmetic of the source. *)
Definition threshold (counts : list float) : float :=
  let mean :=
    match length counts with
    | O => 0%float
    | S _ => div (JS.reduce (fun a b => add a b) 0%float counts) (lengthOf counts)
    end in
  let variance :=
    match length counts with
    | O => 0%float
    | S _ => div (JS.reduce (fun sum val => add sum (mul (sub val mean) (sub val mean)))
                            0%float counts)
                 (lengthOf counts)
    end in
  let stdDev := sqrt variance in
  add mean (mul 0x1.3333333333333p+0%float stdDev).

(** [count >= threshold] for every count, in order. *)
Definition flags (counts : list float) : list bool :=
  map (fun c => leb (threshold counts) c) counts.

End Float64.

(** ** Sample data *)

Module Samples.

Local Open Scope R_scope.

(** The one-minute bin that starts at [minute], with [clicks] clicks. *)
Definition bin (minute clicks : R) : TADashboard.BinRecord :=
  {| TADashboard.bin_start_minute := minute;
     TADashboard.bin_end_minute := minute + 1;
     TADashboard.click_count := clicks;
     TADashboard.unique_students := 0;
     TADashboard.percentage := 0 |}.

(** Two bins without any click. *)
Definition silentBins : list TADashboard.BinRecord := [bin 0 0; bin 1 0].

(** The same two bins as the analysis of the summary has them. *)
Definition silentSummaryBins : list SummaryReport.BinRecord :=
  [ {| SummaryReport.bin_start_minute := 0;
       SummaryReport.bin_end_minute := 1;
       SummaryReport.click_count := 0;
       SummaryReport.unique_students := 0;
       SummaryReport.percentage_of_bin := 0 |};
    {| SummaryReport.bin_start_minute := 1;
       SummaryReport.bin_end_minute := 2;
       SummaryReport.click_count := 0;
       SummaryReport.unique_students := 0;
       SummaryReport.percentage_of_bin := 0 |} ].

(** The session of that summary. *)
Definition silentMeta : SummaryReport.SessionMeta :=
  {| SummaryReport.session_id := 7;
     SummaryReport.session_code := "4821";
     SummaryReport.course_name := "CS 101";
     SummaryReport.duration_minutes := 2;
     SummaryReport.ta_name := "Ada";
     SummaryReport.start_time := "2025-03-01T00:00:00.000Z" |}.

(** Two bins with 0 and 10 clicks. *)
Definition lopsidedBins : list TADashboard.BinRecord := [bin 0 0; bin 1 10].

(** Two bins with one click each. *)
Definition evenPair : list TADashboard.BinRecord := [bin 0 1; bin 1 1].

(** Three bins with one click each. *)
Definition evenTriple : list TADashboard.BinRecord := [bin 0 1; bin 1 1; bin 2 1].

(** A registry with one session, created and not started yet. *)
Definition oneSession : SessionRegistry.Registry :=
  fst (SessionRegistry.createSession "4821" "CS 101" "2025-03-01" 60 "Ada" []).

(** The session that [handleGenerate] makes up for it: its start time is
    midnight of the date. *)
Definition generated : SessionCreator.BackendSession :=
  {| SessionCreator.session_id := 0;
     SessionCreator.session_code := "4821";
     SessionCreator.course_name := "CS 101";
     SessionCreator.recitation_date := "2025-03-01";
     SessionCreator.duration_minutes := 60;
     SessionCreator.ta_name := "Ada";
     SessionCreator.start_time := Some "2025-03-01T00:00:00.000Z"%string;
     SessionCreator.end_time := Some "2025-03-01T01:00:00.000Z"%string |}.

(** A clock format for the samples: the instant [t] is written as [t]
    letters, and read back by counting them. *)
Definition toTally (t : Z) : string :=
  string_of_list_ascii (repeat "I"%char (Z.to_nat t)).

Definition ofTally (s : string) : Z := Z.of_nat (String.length s).

(** A world that answers nothing of interest. *)
Definition idleWorld : Handler.oracle SessionCreator.effect :=
  fun X e =>
    match e in SessionCreator.effect X return X with
    | SessionCreator.preventDefault => tt
    | SessionCreator.fetchCreate _ _ _ _ => Handler.Rejected ""
    | SessionCreator.fetchStart _ => Handler.Rejected ""
    | SessionCreator.setGeneratedSession _ => tt
    | SessionCreator.onCreateSession _ => tt
    | SessionCreator.console_error => tt
    | SessionCreator.alert _ => tt
    end.

(** A student session. *)
Definition studentSession : StudentView.Session :=
  {| StudentView.session_id := 7;
     StudentView.session_code := "4821";
     StudentView.course_name := "CS 101";
     StudentView.anon_id := 3 |}.

(** A world in which the session has not started: the poll answers
    [is_active: false], and the server refuses clicks. *)
Definition notStartedWorld : Handler.oracle StudentView.effect :=
  fun X e =>
    match e in StudentView.effect X return X with
    | StudentView.alert _ => tt
    | StudentView.console_error => tt
    | StudentView.fetchClick _ _ =>
        Handler.Response false
          {| StudentView.student_click_count := 0;
             StudentView.click_error := Some "Session is not active"%string |}
    | StudentView.fetchNote _ _ _ => Handler.Response false tt
    | StudentView.fetchSession _ =>
        Handler.Response true {| StudentView.is_active := Some false |}
    | StudentView.onConfusionClick _ => tt
    | StudentView.setShowFeedback _ => tt
    | StudentView.setNote _ => tt
    | StudentView.setActive _ => tt
    | StudentView.setTimeout_hideFeedback => tt
    end.

(** The state of the student view after its first poll in that world. *)
Definition polledInactive : StudentView.State :=
  fold_left StudentView.apply
    (Handler.trace notStartedWorld (StudentView.check studentSession true))
    (StudentView.initial None).

End Samples.

(** ** What a run of a handler shows to the outside *)

Module Observations.

Import Handler.

(** The counts handed to [onConfusionClick] among some effects of the
    student view. *)
Definition clickCounts (tr : list (action StudentView.effect)) : list nat :=
  flat_map (fun a => match projT2 a with
                     | StudentView.onConfusionClick n => [n]
                     | _ => []
                     end) tr.

(** The messages shown with [alert] by the student view. *)
Definition studentAlerts (tr : list (action StudentView.effect)) : list string :=
  flat_map (fun a => match projT2 a with
                     | StudentView.alert m => [m]
                     | _ => []
                     end) tr.

(** The notes sent to the server by the student view. *)
Definition sentNotes (tr : list (action StudentView.effect)) : list string :=
  flat_map (fun a => match projT2 a with
                     | StudentView.fetchNote _ _ n => [n]
                     | _ => []
                     end) tr.

(** The click requests of the student view, as (session, attendee). *)
Definition sentClicks (tr : list (action StudentView.effect)) : list (nat * nat) :=
  flat_map (fun a => match projT2 a with
                     | StudentView.fetchClick s a => [(s, a)]
                     | _ => []
                     end) tr.

(** The answers handed to [onJoinSuccess] by the join form. *)
Definition joinSuccesses (tr : list (action JoinSession.effect))
    : list JoinSession.JoinData :=
  flat_map (fun a => match projT2 a with
                     | JoinSession.onJoinSuccess d => [d]
                     | _ => []
                     end) tr.

(** The arguments of [setGeneratedSession] in the session creator. *)
Definition generatedSessions (tr : list (action SessionCreator.effect))
    : list (option SessionCreator.BackendSession) :=
  flat_map (fun a => match projT2 a with
                     | SessionCreator.setGeneratedSession g => [g]
                     | _ => []
                     end) tr.

(** The create requests of the session creator: course, date, duration,
    TA name. *)
Definition createRequests (tr : list (action SessionCreator.effect))
    : list (string * string * Z * string) :=
  flat_map (fun a => match projT2 a with
                     | SessionCreator.fetchCreate c d m t => [(c, d, m, t)]
                     | _ => []
                     end) tr.

(** The start requests of the session creator, by session id. *)
Definition startRequests (tr : list (action SessionCreator.effect)) : list nat :=
  flat_map (fun a => match projT2 a with
                     | SessionCreator.fetchStart id => [id]
                     | _ => []
                     end) tr.

(** The messages shown with [alert] by the session creator. *)
Definition creatorAlerts (tr : list (action SessionCreator.effect)) : list string :=
  flat_map (fun a => match projT2 a with
                     | SessionCreator.alert m => [m]
                     | _ => []
                     end) tr.

End Observations.

(** ** App.tsx: the views and their callbacks *)

Module AppFlows.

Import Handler.
Local Open Scope string_scope.
Local Open Scope prog_scope.

(** [StudentSession]. *)
Record StudentSession : Type := mkStudentSession {
  session_id : nat;
  anon_id : nat;
  course_name : string;
  session_code : string;
  is_active : option bool
}.

(** The argument of [handleJoinSuccess]: the answer of the join request,
    with the two optional fields that [App] reads beside those that
    [JoinSession] declares. *)
Record JoinAnswer : Type := mkJoinAnswer {
  joined_session_id : nat;
  joined_anon_id : nat;
  joined_course_name : string;
  joined_duration_minutes : nat;
  joined_start_time : option string;
  joined_end_time : option string;
  joined_session_code : option string;
  joined_is_active : option bool
}.

(** The state of [App]: the five [useState] cells. *)
Record State : Type := mkState {
  view : App.View;
  currentSession : option SessionCreator.BackendSession;
  studentSession : option StudentSession;
  studentClickCount : nat;
  summarySessionId : option nat
}.

Definition initial : State :=
  {| view := App.home; currentSession := None; studentSession := None;
     studentClickCount := 0; summarySessionId := None |}.

Definition setView (v : App.View) (st : State) : State :=
  {| view := v; currentSession := currentSession st;
     studentSession := studentSession st;
     studentClickCount := studentClickCount st;
     summarySessionId := summarySessionId st |}.

Definition setCurrentSession (s : option SessionCreator.BackendSession)
    (st : State) : State :=
  {| view := view st; currentSession := s;
     studentSession := studentSession st;
     studentClickCount := studentClickCount st;
     summarySessionId := summarySessionId st |}.

Definition setStudentSession (s : option StudentSession) (st : State) : State :=
  {| view := view st; currentSession := currentSession st;
     studentSession := s;
     studentClickCount := studentClickCount st;
     summarySessionId := summarySessionId st |}.

Definition setStudentClickCount (n : nat) (st : State) : State :=
  {| view := view st; currentSession := currentSession st;
     studentSession := studentSession st;
     studentClickCount := n;
     summarySessionId := summarySessionId st |}.

Definition setSummarySessionId (id : option nat) (st : State) : State :=
  {| view := view st; currentSession := currentSession st;
     studentSession := studentSession st;
     studentClickCount := studentClickCount st;
     summarySessionId := id |}.

(** [handleCreateSession], on the whole state. *)
Definition handleCreateSession (session : SessionCreator.BackendSession)
    (st : State) : State :=
  setView App.ta_dashboard (setCurrentSession (Some session) st).

Section JoinSuccess.

(** [Number.prototype.toString] on a session id. *)
Variable Number_toString : nat -> string.

(** [handleJoinSuccess]. *)
Definition handleJoinSuccess (data : JoinAnswer) (st : State) : State :=
  setView App.student_active
    (setStudentClickCount 0
       (setStudentSession
          (Some {| session_id := joined_session_id data;
                   anon_id := joined_anon_id data;
                   course_name := joined_course_name data;
                   session_code :=
                     match joined_session_code data with
                     | Some c => c
                     | None => Number_toString (joined_session_id data)
                     end;
                   is_active :=
                     Some (match joined_is_active data with
                           | Some b => b
                           | None => false
                           end) |})
          st)).

End JoinSuccess.

Inductive effect : Type -> Type :=
(** [PUT /api/sessions/${session_id}/end] *)
| fetchEnd : nat -> effect (FetchResult unit)
| putSummarySessionId : nat -> effect unit
| putView : App.View -> effect unit
| console_error : effect unit
| alert : string -> effect unit.

(** [handleEndSession], in a render with this state. *)
Definition handleEndSession (st : State) : prog effect unit :=
  match currentSession st with
  | None => Ret tt
  | Some current =>
      res <- trigger (fetchEnd (SessionCreator.session_id current)) ;;
      match res with
      | Rejected _ =>
          trigger console_error ;; trigger (alert "Error ending session")
      | Response ok _ =>
          if negb ok then
            trigger console_error ;; trigger (alert "Error ending session")
          else
            trigger (putSummarySessionId (SessionCreator.session_id current)) ;;
            trigger (putView App.ta_summary)
      end
  end.

(** The state setters among the effects of [handleEndSession], applied to
    the state at the time they run. *)
Definition apply (st : State) (a : action effect) : State :=
  match projT2 a with
  | putSummarySessionId id => setSummarySessionId (Some id) st
  | putView v => setView v st
  | _ => st
  end.

(** What [renderView] returns: a component with the props that decide
    what it shows, or nothing ([null]). *)
Inductive Rendered : Type :=
| Home : Rendered
| JoinSessionForm : Rendered
| StudentViewOf : StudentView.Session -> bool -> nat -> Rendered
| SessionCreatorForm : Rendered
| TADashboardOf : SessionCreator.BackendSession -> Rendered
| SummaryReportOf : nat -> Rendered
| Nothing : Rendered.

(** [renderView].  [!summarySessionId] holds for [null] and for the
    number 0. *)
Definition renderView (st : State) : Rendered :=
  match view st with
  | App.home => Home
  | App.student_join => JoinSessionForm
  | App.student_active =>
      match studentSession st with
      | None => Nothing
      | Some s =>
          StudentViewOf
            {| StudentView.session_id := session_id s;
               StudentView.anon_id := anon_id s;
               StudentView.course_name := course_name s;
               StudentView.session_code := session_code s |}
            (match is_active s with Some b => b | None => false end)
            (studentClickCount st)
      end
  | App.ta_create => SessionCreatorForm
  | App.ta_dashboard =>
      match currentSession st with
      | None => Nothing
      | Some s => TADashboardOf s
      end
  | App.ta_summary =>
      match summarySessionId st with
      | None => Nothing
      | Some O => Nothing
      | Some id => SummaryReportOf id
      end
  end.

(** The callbacks that the rendered components can fire.  Those that run
    after a request has been answered ([onJoinSuccess], [onConfusionClick],
    [onCreateSession]) may arrive when another view is shown. *)
Inductive Callback : Type :=
| HomeJoin : Callback
| HomeCreate : Callback
| JoinBack : Callback
| JoinSuccess : JoinAnswer -> Callback
| StudentClicked : nat -> Callback
| StudentExit : Callback
| CreatorBack : Callback
| CreatorCreated : SessionCreator.BackendSession -> Callback
| DashboardBack : Callback
| SummaryBack : Callback
| SummaryHome : Callback.

(** The world of one end request: the request is answered with [res]. *)
Definition endWorld (res : FetchResult unit) : oracle effect :=
  fun X e =>
    match e in effect X return X with
    | fetchEnd _ => res
    | putSummarySessionId _ => tt
    | putView _ => tt
    | console_error => tt
    | alert _ => tt
    end.

(** What happens to the application: a callback fires; the button "End
    Session & View Summary" is pressed; or an end request that is under
    way (the [k]-th) is answered. *)
Inductive Event : Type :=
| Fire : Callback -> Event
| EndPressed : Event
| EndAnswered : nat -> FetchResult unit -> Event.

(** The application with its end requests under way; each remembers the
    state of the render in which the button was pressed. *)
Record Running : Type := mkRunning {
  app : State;
  underWay : list State
}.

Definition start : Running := {| app := initial; underWay := [] |}.

Section Dispatch.

Variable Number_toString : nat -> string.

(** One callback.  A button only exists in the view that renders it; a
    callback of a view that is not shown leaves the state as it is. *)
Definition dispatch (st : State) (cb : Callback) : State :=
  match cb, renderView st with
  | HomeJoin, Home => setView App.student_join st
  | HomeCreate, Home => setView App.ta_create st
  | JoinBack, JoinSessionForm => setView App.home st
  | JoinSuccess data, _ => handleJoinSuccess Number_toString data st
  | StudentClicked n, _ => setStudentClickCount n st
  | StudentExit, StudentViewOf _ _ _ =>
      setView App.home (setStudentSession None st)
  | CreatorBack, SessionCreatorForm => setView App.home st
  | CreatorCreated s, _ => handleCreateSession s st
  | DashboardBack, TADashboardOf _ => setView App.home st
  | SummaryBack, SummaryReportOf _ => setView App.ta_dashboard st
  | SummaryHome, SummaryReportOf _ => setView App.home st
  | _, _ => st
  end.

(** One event.  [handleEndSession] runs up to its request when the button
    of the dashboard is pressed, and from the answer on when the answer
    arrives; its state updates apply to the state of that moment. *)
Definition react (r : Running) (ev : Event) : Running :=
  match ev with
  | Fire cb => {| app := dispatch (app r) cb; underWay := underWay r |}
  | EndPressed =>
      match renderView (app r) with
      | TADashboardOf _ => {| app := app r; underWay := (underWay r ++ [app r])%list |}
      | _ => r
      end
  | EndAnswered k res =>
      match nth_error (underWay r) k with
      | None => r
      | Some pressed =>
          {| app := fold_left apply
                      (trace (endWorld res) (handleEndSession pressed)) (app r);
             underWay := (firstn k (underWay r) ++ skipn (S k) (underWay r))%list |}
      end
  end.

(** The application after these events, from its first render. *)
Definition after (evs : list Event) : Running := fold_left react evs start.

End Dispatch.

(** The state with which the student view is mounted when [App] goes from
    one state to the next.  [useState] reads its initial value at the mount
    only: when the student view is shown before and after, the component
    stays mounted and keeps its state, whatever the new props, and there
    is no mount ([None]). *)
Definition studentViewAtMount (before next : State) : option StudentView.State :=
  match renderView before, renderView next with
  | StudentViewOf _ _ _, _ => None
  | _, StudentViewOf _ isSessionActive _ =>
      Some (StudentView.initial (Some isSessionActive))
  | _, _ => None
  end.

(** The messages shown with [alert] by [handleEndSession]. *)
Definition endAlerts (tr : list (action effect)) : list string :=
  flat_map (fun a => match projT2 a with
                     | alert m => [m]
                     | _ => []
                     end) tr.

(** The end requests of [handleEndSession], by session id. *)
Definition endRequests (tr : list (action effect)) : list nat :=
  flat_map (fun a => match projT2 a with
                     | fetchEnd id => [id]
                     | _ => []
                     end) tr.

(** What every reachable state of the application satisfies: a view that
    needs a session has one. *)
Definition consistent (r : Running) : Prop :=
  (view (app r) = App.student_active -> studentSession (app r) <> None)
  /\ (view (app r) = App.ta_summary -> summarySessionId (app r) <> None)
  /\ (view (app r) = App.ta_dashboard \/ view (app r) = App.ta_summary \/
      underWay r <> [] -> currentSession (app r) <> None)
  /\ Forall (fun pressed => currentSession pressed <> None) (underWay r).

End AppFlows.

(** ** The same bins on the dashboard and in the summary *)

Module SameBins.

(** A bin of the analysis read as a bin of the dashboard: the two
    components declare the same five fields. *)
Definition onDashboard (b : SummaryReport.BinRecord) : TADashboard.BinRecord :=
  {| TADashboard.bin_start_minute := SummaryReport.bin_start_minute b;
     TADashboard.bin_end_minute := SummaryReport.bin_end_minute b;
     TADashboard.click_count := SummaryReport.click_count b;
     TADashboard.unique_students := SummaryReport.unique_students b;
     TADashboard.percentage := SummaryReport.percentage_of_bin b |}.

(** The counts of the rows that the summary marks High, in order. *)
Definition highCounts (s : SummaryReport.Summary) : list R :=
  map SummaryReport.count
      (filter (fun d => SummaryReport.high s d) (SummaryReport.data s)).

(** The counts of the peak bins of the dashboard, in order. *)
Definition peakCounts (st : TADashboard.Stats) : list R :=
  map TADashboard.count (TADashboard.peakBins st).

End SameBins.

(** ** More sample data *)

Module MoreSamples.

Local Open Scope string_scope.

(** The answer to a join request. *)
Definition joinData : JoinSession.JoinData :=
  {| JoinSession.session_id := 7;
     JoinSession.anon_id := 3;
     JoinSession.course_name := "CS 101";
     JoinSession.duration_minutes := 60;
     JoinSession.start_time := None;
     JoinSession.end_time := None |}.

(** A world in which every join request succeeds. *)
Definition joinWorld : Handler.oracle JoinSession.effect :=
  fun X e =>
    match e in JoinSession.effect X return X with
    | JoinSession.preventDefault => tt
    | JoinSession.setCode _ => tt
    | JoinSession.setError _ => tt
    | JoinSession.fetchJoin _ => Handler.Response true joinData
    | JoinSession.onJoinSuccess _ => tt
    | JoinSession.console_error => tt
    end.

(** The join form with a complete code and an old error message. *)
Definition filledForm : JoinSession.State :=
  {| JoinSession.code := "4821"; JoinSession.error := "Invalid or expired session code" |}.

(** A world of the student view given by its answers to the click and to
    the note. *)
Definition studentWorld (click : Handler.FetchResult StudentView.ClickData)
    (note : Handler.FetchResult unit) : Handler.oracle StudentView.effect :=
  fun X e =>
    match e in StudentView.effect X return X with
    | StudentView.alert _ => tt
    | StudentView.console_error => tt
    | StudentView.fetchClick _ _ => click
    | StudentView.fetchNote _ _ _ => note
    | StudentView.fetchSession _ =>
        Handler.Response true {| StudentView.is_active := Some true |}
    | StudentView.onConfusionClick _ => tt
    | StudentView.setShowFeedback _ => tt
    | StudentView.setNote _ => tt
    | StudentView.setActive _ => tt
    | StudentView.setTimeout_hideFeedback => tt
    end.

(** The fourth click of the attendee, accepted. *)
Definition fourthClick : StudentView.ClickData :=
  {| StudentView.student_click_count := 4; StudentView.click_error := None |}.

(** A click that the server refuses with a message. *)
Definition refusedClick : StudentView.ClickData :=
  {| StudentView.student_click_count := 0;
     StudentView.click_error := Some "Session is not active" |}.

(** The student view of an active session, with a note typed in. *)
Definition writing : StudentView.State :=
  {| StudentView.note := "example 2";
     StudentView.showFeedback := false;
     StudentView.active := true |}.

(** A world of the session creator given by its answers to the create
    and to the start request. *)
Definition creatorWorld (create : Handler.FetchResult SessionCreator.CreateData)
    (started : Handler.FetchResult SessionCreator.StartData)
    : Handler.oracle SessionCreator.effect :=
  fun X e =>
    match e in SessionCreator.effect X return X with
    | SessionCreator.preventDefault => tt
    | SessionCreator.fetchCreate _ _ _ _ => create
    | SessionCreator.fetchStart _ => started
    | SessionCreator.setGeneratedSession _ => tt
    | SessionCreator.onCreateSession _ => tt
    | SessionCreator.console_error => tt
    | SessionCreator.alert _ => tt
    end.

(** Two notes, the first written one tick after the start and the second
    three ticks after it, in the tally format of the samples. *)
Definition twoNotes : list TADashboard.NoteRecord :=
  [ {| TADashboard.anon_id := 3; TADashboard.note := "example 2";
       TADashboard.created_at := "II" |};
    {| TADashboard.anon_id := 5; TADashboard.note := "slide 9";
       TADashboard.created_at := "IIII" |} ].

(** A dashboard session that started at tick 1. *)
Definition tallySession : TADashboard.Session :=
  {| TADashboard.session_id := 7;
     TADashboard.session_code := "4821";
     TADashboard.course_name := "CS 101";
     TADashboard.duration_minutes := 60;
     TADashboard.start_time := "I" |}.

(** The metadata of a summary. *)
Definition summaryMeta : SummaryReport.SessionMeta :=
  {| SummaryReport.session_id := 7;
     SummaryReport.session_code := "4821";
     SummaryReport.course_name := "CS 101";
     SummaryReport.duration_minutes := 60;
     SummaryReport.ta_name := "Ada";
     SummaryReport.start_time := "I" |}.

(** A bin of the analysis with this start, click count and percentage. *)
Definition sbin (minute clicks pct : R) : SummaryReport.BinRecord :=
  {| SummaryReport.bin_start_minute := minute;
     SummaryReport.bin_end_minute := (minute + 1)%R;
     SummaryReport.click_count := clicks;
     SummaryReport.unique_students := clicks;
     SummaryReport.percentage_of_bin := pct |}.


(** The application on the dashboard of the generated sample session. *)
Definition onDashboard : AppFlows.State :=
  AppFlows.handleCreateSession Samples.generated AppFlows.initial.

End MoreSamples.

(** * Proofs *)

(** ** Sums and folds *)

Section Folds.

Local Open Scope R_scope.

Lemma reduce_plus_sum (l : list R) (a : R) :
  JS.reduce (fun a b => a + b) a l = a + Population.sum l.
Proof.
  unfold JS.reduce. revert a.
  induction l as [|x l IH]; intros a; simpl.
  - lra.
  - rewrite IH. lra.
Qed.

Lemma reduce_squares_sum (m : R) (l : list R) (a : R) :
  JS.reduce (fun sum val => sum + (val - m) ^ 2) a l
  = a + Population.sum (map (fun x => (x - m) * (x - m)) l).
Proof.
  unfold JS.reduce. revert a.
  induction l as [|x l IH]; intros a; simpl.
  - lra.
  - rewrite IH. lra.
Qed.

Lemma mean_of_population (l : list R) :
  l <> [] -> TADashboard.mean_of l = Population.mean l.
Proof.
  intros Hl. unfold TADashboard.mean_of, Population.mean.
  destruct l as [|x l]; [congruence|].
  cbn [length]. rewrite reduce_plus_sum. f_equal. lra.
Qed.

Lemma variance_of_population (l : list R) (m : R) :
  l <> [] -> m = Population.mean l ->
  TADashboard.variance_of l m = Population.variance l.
Proof.
  intros Hl ->. unfold TADashboard.variance_of, Population.variance.
  destruct l as [|x l]; [congruence|].
  cbn [length]. rewrite reduce_squares_sum.
  unfold Population.squaredDeviations. f_equal. lra.
Qed.

Lemma counts_of_chartData (bins : list TADashboard.BinRecord) :
  map TADashboard.count (TADashboard.chartData bins)
  = map TADashboard.click_count bins.
Proof.
  unfold TADashboard.chartData. rewrite map_map. reflexivity.
Qed.

(** The statistics of the dashboard on a list of counts that is not
    empty. *)
Lemma stats_nonempty (Click : Type) (cd : list TADashboard.ChartDatum)
    (clicks : list Click) (n : nat) :
  cd <> [] ->
  let counts := map TADashboard.count cd in
  let st := TADashboard.stats cd clicks n in
  TADashboard.mean st = Population.mean counts /\
  TADashboard.stdDev st = Population.stdDev counts /\
  TADashboard.threshold st = Population.threshold counts.
Proof.
  intros Hcd counts st.
  assert (Hc : counts <> []).
  { subst counts. destruct cd; [congruence | discriminate]. }
  subst st. unfold TADashboard.stats. cbn.
  fold counts.
  rewrite (mean_of_population Hc).
  rewrite (variance_of_population Hc eq_refl).
  unfold Population.threshold, Population.stdDev. auto.
Qed.

(** The threshold of the summary is the threshold of the dashboard on
    the same counts. *)
Lemma summary_threshold (meta : SummaryReport.SessionMeta)
    (bins : list SummaryReport.BinRecord) (total : R) :
  exists s, SummaryReport.summary (Some meta) bins total = Some s /\
    map SummaryReport.count (SummaryReport.data s)
    = map SummaryReport.click_count bins /\
    SummaryReport.threshold s =
      let counts := map SummaryReport.click_count bins in
      let m := TADashboard.mean_of counts in
      m + 1.2 * sqrt (TADashboard.variance_of counts m).
Proof.
  eexists. split; [reflexivity|]. cbn.
  rewrite !map_map. cbn. split; reflexivity.
Qed.

End Folds.

(** ** The confusion statistics (TADashboard.stats, SummaryReport.summary) *)

Section Statistics.

Local Open Scope R_scope.

Lemma geb_true_iff (a b : R) : JS.geb a b = true <-> a >= b.
Proof.
  unfold JS.geb. destruct (Rge_dec a b); split; intros; try easy.
Qed.

Lemma geb_false_iff (a b : R) : JS.geb a b = false <-> a < b.
Proof.
  unfold JS.geb. destruct (Rge_dec a b); split; intros; try easy; lra.
Qed.

(** C1. For every list of bins the dashboard's statistics are the
    population mean of the click counts, their population standard
    deviation (divisor: the number of bins) and mean + 1.2 * stdDev; with
    no bin all three are 0.  The summary report computes the same
    threshold from the same counts. *)
Theorem confusion_statistics_are_population_statistics :
  forall (Click : Type) (bins : list TADashboard.BinRecord)
         (clicks : list Click) (totalStudents : nat)
         (meta : SummaryReport.SessionMeta)
         (sbins : list SummaryReport.BinRecord) (total : R),
    let st := TADashboard.stats (TADashboard.chartData bins) clicks totalStudents in
    let counts := map TADashboard.click_count bins in
    let scounts := map SummaryReport.click_count sbins in
    (TADashboard.mean st, TADashboard.stdDev st, TADashboard.threshold st)
    = match bins with
      | [] => (0, 0, 0)
      | _ :: _ => (Population.mean counts,
                   Population.stdDev counts,
                   Population.mean counts + 1.2 * Population.stdDev counts)
      end
    /\ exists s,
         SummaryReport.summary (Some meta) sbins total = Some s /\
         SummaryReport.threshold s
         = match sbins with
           | [] => 0
           | _ :: _ => Population.mean scounts + 1.2 * Population.stdDev scounts
           end.
Proof.
  intros Click bins clicks n meta sbins total st counts scounts. split.
  - destruct bins as [|b bins].
    + subst st. cbn. rewrite sqrt_0.
      repeat f_equal; lra.
    + assert (Hne : TADashboard.chartData (b :: bins) <> []) by discriminate.
      destruct (stats_nonempty clicks n Hne) as (Hm & Hs & Ht).
      fold st in Hm, Hs, Ht.
      rewrite counts_of_chartData in Hm, Hs, Ht. fold counts in Hm, Hs, Ht.
      rewrite Hm, Hs, Ht. reflexivity.
  - destruct (summary_threshold meta sbins total) as (s & Hs & _ & Ht).
    exists s. split; [exact Hs|]. rewrite Ht. fold scounts.
    destruct sbins as [|b sbins].
    + cbn. rewrite sqrt_0. lra.
    + assert (Hne : scounts <> []) by (subst scounts; discriminate).
      cbv zeta.
      rewrite (mean_of_population Hne).
      rewrite (variance_of_population Hne eq_refl).
      reflexivity.
Qed.

(** C2. The peak bins are exactly the bins whose count is at or above
    the threshold, in the order of the chart, and a bin whose count
    equals the threshold is among them; the [high] flag of the summary
    table is the same inclusive test. *)
Theorem peak_bins_are_the_bins_at_or_above_threshold :
  forall (Click : Type) (cd : list TADashboard.ChartDatum)
         (clicks : list Click) (totalStudents : nat),
    let st := TADashboard.stats cd clicks totalStudents in
    TADashboard.peakBins st
    = filter (fun d => JS.geb (TADashboard.count d) (TADashboard.threshold st)) cd
    /\ (forall d, In d (TADashboard.peakBins st) <->
                  In d cd /\ TADashboard.count d >= TADashboard.threshold st)
    /\ (forall d, In d cd -> TADashboard.count d = TADashboard.threshold st ->
                  In d (TADashboard.peakBins st))
    /\ (forall s d, SummaryReport.high s d = true <->
                    SummaryReport.count d >= SummaryReport.threshold s)
    /\ (forall s d, SummaryReport.count d = SummaryReport.threshold s ->
                    SummaryReport.high s d = true).
Proof.
  intros Click cd clicks n st.
  assert (Hpk : TADashboard.peakBins st
    = filter (fun d => JS.geb (TADashboard.count d) (TADashboard.threshold st)) cd)
    by reflexivity.
  split; [exact Hpk|]. split; [|split; [|split]].
  - intros d. rewrite Hpk, filter_In, geb_true_iff. tauto.
  - intros d Hin Heq. rewrite Hpk, filter_In, geb_true_iff. split; [exact Hin|lra].
  - intros s d. unfold SummaryReport.high. apply geb_true_iff.
  - intros s d Heq. unfold SummaryReport.high. apply geb_true_iff. lra.
Qed.

End Statistics.

(** ** Raising one count: sums, mean and variance *)

Section Bump.

Local Open Scope R_scope.

Lemma bump_length (i : nat) (delta : R) (l : list R) :
  length (Population.bump i delta l) = length l.
Proof.
  revert i. induction l as [|x l IH]; intros [|i]; simpl; auto.
Qed.

Lemma bump_sum (i : nat) (delta : R) (l : list R) :
  (i < length l)%nat ->
  Population.sum (Population.bump i delta l) = Population.sum l + delta.
Proof.
  revert i. induction l as [|x l IH]; intros [|i] Hi; simpl in *; try lia.
  - lra.
  - rewrite IH by lia. lra.
Qed.

Lemma bump_nth (i : nat) (delta : R) (l : list R) :
  (i < length l)%nat ->
  nth i (Population.bump i delta l) 0 = nth i l 0 + delta.
Proof.
  revert i. induction l as [|x l IH]; intros [|i] Hi; simpl in *; try lia.
  - reflexivity.
  - apply IH. lia.
Qed.

Lemma bump_deviations (c : R) (i : nat) (delta : R) (l : list R) :
  (i < length l)%nat ->
  Population.squaredDeviations c (Population.bump i delta l)
  = Population.squaredDeviations c l + 2 * delta * (nth i l 0 - c) + delta * delta.
Proof.
  unfold Population.squaredDeviations.
  revert i. induction l as [|x l IH]; intros [|i] Hi; simpl in *; try lia.
  - lra.
  - rewrite IH by lia. lra.
Qed.

(** Shifting the centre of the squared deviations. *)
Lemma deviations_shift (c c' : R) (l : list R) :
  Population.squaredDeviations c' l
  = Population.squaredDeviations c l
    + 2 * (c - c') * (Population.sum l - INR (length l) * c)
    + INR (length l) * ((c - c') * (c - c')).
Proof.
  unfold Population.squaredDeviations. induction l as [|x l IH].
  - simpl. lra.
  - cbn [map Population.sum length]. rewrite IH, S_INR. lra.
Qed.

Lemma deviations_nonneg (c : R) (l : list R) : 0 <= Population.squaredDeviations c l.
Proof.
  unfold Population.squaredDeviations. induction l as [|x l IH]; simpl; [lra|].
  pose proof (Rle_0_sqr (x - c)) as H. unfold Rsqr in H. lra.
Qed.

Lemma length_pos_INR (l : list R) : l <> [] -> 0 < INR (length l).
Proof.
  intros H. destruct l; [congruence|]. apply lt_0_INR. simpl. lia.
Qed.

Lemma variance_nonneg (l : list R) : 0 <= Population.variance l.
Proof.
  destruct l as [|x l].
  - unfold Population.variance. simpl. rewrite Rdiv_0_l. lra.
  - unfold Population.variance. apply Rmult_le_pos.
    + apply (deviations_nonneg (Population.mean (x :: l)) (x :: l)).
    + left. apply Rinv_0_lt_compat, length_pos_INR. discriminate.
Qed.

Lemma bump_mean (i : nat) (delta : R) (l : list R) :
  (i < length l)%nat ->
  Population.mean (Population.bump i delta l)
  = Population.mean l + delta / INR (length l).
Proof.
  intros Hi. unfold Population.mean.
  rewrite bump_length, bump_sum by exact Hi.
  assert (Hn : 0 < INR (length l)) by (apply lt_0_INR; lia).
  field. lra.
Qed.

(** The variance after a raise of [delta] at index [i], with
    [e = delta / n]. *)
Lemma bump_variance (i : nat) (delta : R) (l : list R) :
  (i < length l)%nat ->
  let n := INR (length l) in
  let e := delta / n in
  Population.variance (Population.bump i delta l)
  = Population.variance l + 2 * e * (nth i l 0 - Population.mean l)
    + e * e * (n - 1).
Proof.
  intros Hi n e.
  assert (Hn : 0 < n) by (apply lt_0_INR; lia).
  unfold Population.variance.
  rewrite bump_length. fold n.
  rewrite (bump_deviations _ delta l Hi).
  rewrite (deviations_shift (Population.mean l)
             (Population.mean (Population.bump i delta l)) l).
  rewrite (bump_mean delta l Hi). fold n. fold e.
  assert (Hs : Population.sum l = n * Population.mean l).
  { unfold Population.mean. fold n. field. lra. }
  rewrite Hs.
  assert (Hd : delta = n * e) by (unfold e; field; lra).
  rewrite Hd. field. lra.
Qed.

End Bump.

(** ** The threshold under a raise of one count *)

Section ThresholdUnderRaise.

Local Open Scope R_scope.

(** A count is at or above [m + 1.2 * sqrt v] exactly when it is at or
    above [m] and its squared distance to [m] is at least [1.44 * v]. *)
Lemma at_or_above_threshold_iff (x m v : R) :
  0 <= v ->
  (x >= m + 1.2 * sqrt v <-> (m <= x /\ 1.44 * v <= (x - m) * (x - m))).
Proof.
  intros Hv.
  pose proof (sqrt_pos v) as Hs.
  pose proof (sqrt_sqrt v Hv) as Hss.
  split.
  - intros H. split; nra.
  - intros [H1 H2]. apply Rle_ge.
    destruct (Rle_lt_dec (m + 1.2 * sqrt v) x) as [Hle|Hlt]; [exact Hle|].
    exfalso. nra.
Qed.

Lemma threshold_bump_mono (i : nat) (delta : R) (l : list R) :
  (i < length l)%nat -> 0 <= delta ->
  Population.mean l <= nth i l 0 ->
  Population.threshold l <= Population.threshold (Population.bump i delta l).
Proof.
  intros Hi Hd Hx.
  unfold Population.threshold, Population.stdDev.
  assert (Hn : 1 <= INR (length l)).
  { change 1 with (INR 1). apply le_INR. lia. }
  assert (He : 0 <= delta / INR (length l)).
  { apply Rmult_le_pos; [exact Hd|]. left. apply Rinv_0_lt_compat. lra. }
  rewrite (bump_mean delta l Hi).
  assert (Hv : Population.variance l
               <= Population.variance (Population.bump i delta l)).
  { rewrite (bump_variance delta l Hi). cbv zeta.
    set (e := delta / INR (length l)) in *. nra. }
  pose proof (sqrt_le_1_alt _ _ Hv). lra.
Qed.

Lemma flagged_bump (i : nat) (delta : R) (l : list R) :
  (i < length l)%nat -> 0 <= delta -> length l <> 2%nat ->
  nth i l 0 >= Population.threshold l ->
  nth i (Population.bump i delta l) 0
  >= Population.threshold (Population.bump i delta l).
Proof.
  intros Hi Hd Hlen Hfl.
  unfold Population.threshold, Population.stdDev in *.
  apply at_or_above_threshold_iff in Hfl; [|apply variance_nonneg].
  apply at_or_above_threshold_iff; [apply variance_nonneg|].
  rewrite (bump_nth delta l Hi), (bump_mean delta l Hi),
          (bump_variance delta l Hi). cbv zeta.
  destruct Hfl as [Hm Hsq].
  set (n := INR (length l)) in *.
  set (x := nth i l 0) in *.
  set (m := Population.mean l) in *.
  set (v := Population.variance l) in *.
  assert (Hn1 : 1 <= n).
  { subst n. change 1 with (INR 1). apply le_INR. lia. }
  assert (Hdelta : delta = n * (delta / n)) by (field; lra).
  set (e := delta / n) in *.
  assert (He : 0 <= e).
  { subst e. apply Rmult_le_pos; [exact Hd|]. left. apply Rinv_0_lt_compat. lra. }
  rewrite Hdelta.
  destruct (Nat.eq_dec (length l) 1) as [H1|H1].
  - (* one bin: its count is the mean *)
    assert (Hn : n = 1) by (subst n; rewrite H1; reflexivity).
    assert (Hxm : x = m).
    { subst x m. destruct l as [|y [|z l]]; simpl in H1; try lia.
      destruct i; [|simpl in Hi; lia].
      unfold Population.mean. simpl. field. }
    rewrite Hn, Hxm. split; nra.
  - (* three bins or more *)
    assert (Hn3 : 3 <= n).
    { subst n. replace 3 with (INR 3) by (simpl; lra). apply le_INR. lia. }
    split; [nra|].
    assert (Hed : 0 <= e * (x - m)) by (apply Rmult_le_pos; lra).
    assert (Hee : 0 <= e * e) by (apply Rmult_le_pos; lra).
    assert (Hk1 : 0 <= (2 * (n - 1) - 2.88) * (e * (x - m))).
    { apply Rmult_le_pos; lra. }
    assert (Hk2 : 0 <= ((n - 1) * (n - 1 - 1.44)) * (e * e)).
    { apply Rmult_le_pos; [apply Rmult_le_pos; lra | lra]. }
    nra.
Qed.

End ThresholdUnderRaise.

(** ** Bins, their counts and their flags *)

Section BinsAndCounts.

Local Open Scope R_scope.

Lemma thresholdOf_population (bins : list TADashboard.BinRecord) :
  bins <> [] ->
  Bins.thresholdOf bins = Population.threshold (map TADashboard.click_count bins).
Proof.
  intros Hb. unfold Bins.thresholdOf.
  assert (Hne : TADashboard.chartData bins <> []).
  { destruct bins; [congruence | discriminate]. }
  destruct (stats_nonempty (@nil unit) 0 Hne) as (_ & _ & Ht).
  rewrite Ht, counts_of_chartData. reflexivity.
Qed.

Lemma meanOf_population (bins : list TADashboard.BinRecord) :
  bins <> [] ->
  Bins.meanOf bins = Population.mean (map TADashboard.click_count bins).
Proof.
  intros Hb. unfold Bins.meanOf.
  assert (Hne : TADashboard.chartData bins <> []).
  { destruct bins; [congruence | discriminate]. }
  destruct (stats_nonempty (@nil unit) 0 Hne) as (Hm & _ & _).
  rewrite Hm, counts_of_chartData. reflexivity.
Qed.

Lemma counts_raiseCount (i : nat) (delta : R) (bins : list TADashboard.BinRecord) :
  map TADashboard.click_count (Bins.raiseCount i delta bins)
  = Population.bump i delta (map TADashboard.click_count bins).
Proof.
  revert i. induction bins as [|b bins IH]; intros [|i]; simpl; auto.
  rewrite IH. reflexivity.
Qed.

Lemma raiseCount_length (i : nat) (delta : R) (bins : list TADashboard.BinRecord) :
  length (Bins.raiseCount i delta bins) = length bins.
Proof.
  revert i. induction bins as [|b bins IH]; intros [|i]; simpl; auto.
Qed.

Lemma nth_error_chartData (bins : list TADashboard.BinRecord) (i : nat) :
  option_map TADashboard.count (nth_error (TADashboard.chartData bins) i)
  = nth_error (map TADashboard.click_count bins) i.
Proof.
  revert i. induction bins as [|b bins IH]; intros [|i]; simpl; auto.
Qed.

(** Bin [i] is flagged exactly when its count is at or above the
    threshold. *)
Lemma flagged_iff (bins : list TADashboard.BinRecord) (i : nat) :
  (i < length bins)%nat ->
  (Bins.flagged bins i = true <->
   nth i (map TADashboard.click_count bins) 0 >= Bins.thresholdOf bins).
Proof.
  intros Hi. unfold Bins.flagged.
  pose proof (nth_error_chartData bins i) as He.
  assert (Hl : (i < length (map TADashboard.click_count bins))%nat)
    by (rewrite length_map; exact Hi).
  rewrite (nth_error_nth' _ 0 Hl) in He.
  destruct (nth_error (TADashboard.chartData bins) i) as [d|]; simpl in He.
  - injection He as He. rewrite <- He. apply geb_true_iff.
  - discriminate.
Qed.

(** Bin [i] is flagged exactly when the [i]-th datum of the chart is one
    of [peakBins]' elements by the filter. *)
Lemma flagged_peakBins (bins : list TADashboard.BinRecord) (i : nat) :
  Bins.flagged bins i = true ->
  exists d, nth_error (TADashboard.chartData bins) i = Some d /\
    In d (TADashboard.peakBins
            (TADashboard.stats (TADashboard.chartData bins) (@nil unit) 0)).
Proof.
  unfold Bins.flagged.
  destruct (nth_error (TADashboard.chartData bins) i) as [d|] eqn:Hd;
    [|discriminate].
  intros Hg. exists d. split; [reflexivity|].
  cbn [TADashboard.peakBins TADashboard.stats].
  apply filter_In. split; [eapply nth_error_In; exact Hd|exact Hg].
Qed.

(** Two counts: the mean is the midpoint and the standard deviation is
    half the distance. *)
Lemma threshold_pair (a b : R) :
  a <= b -> Population.threshold [a; b] = (a + b) / 2 + 1.2 * ((b - a) / 2).
Proof.
  intros Hab.
  unfold Population.threshold, Population.stdDev, Population.variance,
    Population.squaredDeviations, Population.mean.
  cbn [map Population.sum length INR].
  replace ((a + (b + 0)) / (1 + 1)) with ((a + b) / 2) by lra.
  replace (((a - (a + b) / 2) * (a - (a + b) / 2)
            + ((b - (a + b) / 2) * (b - (a + b) / 2) + 0)) / (1 + 1))
    with (((b - a) / 2) * ((b - a) / 2)) by lra.
  rewrite sqrt_square by lra. reflexivity.
Qed.

(** Equal counts: the mean is the common count and the variance is 0. *)
Lemma equal_counts (c : R) (l : list R) :
  (forall x, In x l -> x = c) ->
  Population.sum l = INR (length l) * c /\
  Population.sum (map (fun x => (x - c) * (x - c)) l) = 0.
Proof.
  induction l as [|x l IH]; intros Hall.
  - simpl. split; lra.
  - destruct IH as [IH1 IH2]; [intros y Hy; apply Hall; right; exact Hy|].
    assert (Hx : x = c) by (apply Hall; left; reflexivity).
    cbn [map Population.sum length]. rewrite S_INR, IH1, IH2, Hx. split; lra.
Qed.

Lemma equal_counts_mean_variance (c : R) (l : list R) :
  l <> [] -> (forall x, In x l -> x = c) ->
  Population.mean l = c /\ Population.variance l = 0.
Proof.
  intros Hne Hall.
  destruct (equal_counts l Hall) as [Hs Hq].
  pose proof (length_pos_INR Hne) as Hn.
  assert (Hm : Population.mean l = c).
  { unfold Population.mean. rewrite Hs. field. lra. }
  split; [exact Hm|].
  unfold Population.variance, Population.squaredDeviations.
  rewrite Hm, Hq. field. lra.
Qed.

End BinsAndCounts.

(** ** Equal counts *)

Section EqualCounts.

Local Open Scope R_scope.

(** With equal counts the threshold is the common count, and the filter
    of [peakBins] keeps every bin. *)
Lemma equal_counts_stats (Click : Type) (cd : list TADashboard.ChartDatum)
    (clicks : list Click) (n : nat) (c : R) :
  (forall d, In d cd -> TADashboard.count d = c) ->
  let st := TADashboard.stats cd clicks n in
  TADashboard.stdDev st = 0 /\
  TADashboard.threshold st = TADashboard.mean st /\
  TADashboard.peakBins st = cd /\
  (cd <> [] -> TADashboard.mean st = c).
Proof.
  intros Hall st.
  assert (Hcases : cd = [] \/ cd <> []).
  { destruct cd; [left; reflexivity | right; discriminate]. }
  destruct Hcases as [Hnil | Hne].
  - subst cd st. cbn. rewrite sqrt_0. repeat split; try lra. congruence.
  - destruct (stats_nonempty clicks n Hne) as (Hm & Hs & Ht). fold st in Hm, Hs, Ht.
    assert (Hall' : forall x, In x (map TADashboard.count cd) -> x = c).
    { intros x Hx. apply in_map_iff in Hx. destruct Hx as (d & <- & Hd). auto. }
    assert (Hne' : map TADashboard.count cd <> []).
    { destruct cd; [congruence | discriminate]. }
    destruct (equal_counts_mean_variance Hne' Hall') as [Hmean Hvar].
    assert (Hsd : TADashboard.stdDev st = 0).
    { rewrite Hs. unfold Population.stdDev. rewrite Hvar. apply sqrt_0. }
    assert (Hth : TADashboard.threshold st = TADashboard.mean st).
    { rewrite Ht, Hm. unfold Population.threshold, Population.stdDev.
      rewrite Hvar, sqrt_0. lra. }
    repeat split; auto.
    + change (TADashboard.peakBins st)
        with (filter (fun d => JS.geb (TADashboard.count d) (TADashboard.threshold st)) cd).
      apply forallb_filter_id. apply forallb_forall. intros d Hd.
      apply geb_true_iff. rewrite Hth, Hm, Hmean, (Hall d Hd). lra.
    + intros _. rewrite Hm. exact Hmean.
Qed.

(** With equal counts every row of the summary table is [high]. *)
Lemma equal_counts_summary (meta : SummaryReport.SessionMeta)
    (sbins : list SummaryReport.BinRecord) (total c : R) :
  (forall b, In b sbins -> SummaryReport.click_count b = c) ->
  exists s, SummaryReport.summary (Some meta) sbins total = Some s /\
            forall d, In d (SummaryReport.data s) -> SummaryReport.high s d = true.
Proof.
  intros Hall.
  destruct (summary_threshold meta sbins total) as (s & Hs & Hcounts & Ht).
  exists s. split; [exact Hs|].
  intros d Hd. unfold SummaryReport.high. apply geb_true_iff.
  assert (Hd' : In (SummaryReport.count d) (map SummaryReport.click_count sbins)).
  { rewrite <- Hcounts. apply in_map, Hd. }
  assert (Hne : map SummaryReport.click_count sbins <> []).
  { intros E. rewrite E in Hd'. exact Hd'. }
  assert (Hall' : forall x, In x (map SummaryReport.click_count sbins) -> x = c).
  { intros x Hx. apply in_map_iff in Hx. destruct Hx as (b & <- & Hb). auto. }
  destruct (equal_counts_mean_variance Hne Hall') as [Hm Hv].
  rewrite Ht. cbv zeta.
  rewrite (mean_of_population Hne), (variance_of_population Hne eq_refl).
  rewrite Hm, Hv, sqrt_0, (Hall' _ Hd'). lra.
Qed.

(** With equal counts "Key Insights" lists every row of the summary. *)
Lemma equal_counts_insights (meta : SummaryReport.SessionMeta)
    (sbins : list SummaryReport.BinRecord) (total c : R) :
  sbins <> [] ->
  (forall b, In b sbins -> SummaryReport.click_count b = c) ->
  exists s, SummaryReport.summary (Some meta) sbins total = Some s /\
            length (SummaryReport.data s) = length sbins /\
            Forall (fun d => SummaryReport.count d = c /\
                             SummaryReport.status s d = SummaryReport.High)
                   (SummaryReport.data s) /\
            SummaryReport.keyInsights s = Some (SummaryReport.data s).
Proof.
  intros Hne Hall.
  destruct (@equal_counts_summary meta sbins total c Hall) as (s & Hs & Hhigh).
  destruct (summary_threshold meta sbins total) as (s' & Hs' & Hcounts & _).
  assert (s' = s) by congruence. subst s'.
  exists s. split; [exact Hs|].
  assert (Hlen : length (SummaryReport.data s) = length sbins).
  { rewrite <- (length_map SummaryReport.count), Hcounts, length_map. reflexivity. }
  split; [exact Hlen|]. split.
  - apply Forall_forall. intros d Hd. split.
    + assert (Hin : In (SummaryReport.count d) (map SummaryReport.click_count sbins)).
      { rewrite <- Hcounts. apply in_map, Hd. }
      apply in_map_iff in Hin. destruct Hin as (b & Hb & Hbin).
      rewrite <- Hb. apply Hall, Hbin.
    + unfold SummaryReport.status. rewrite (Hhigh d Hd). reflexivity.
  - unfold SummaryReport.keyInsights, JS.some.
    assert (Hall' : forallb (fun d => JS.geb (SummaryReport.count d)
                                             (SummaryReport.threshold s))
                            (SummaryReport.data s) = true).
    { apply forallb_forall. intros d Hd. apply (Hhigh d Hd). }
    rewrite (forallb_filter_id _ _ Hall').
    destruct (SummaryReport.data s) as [|d0 ds] eqn:Ed.
    + exfalso. destruct sbins; [congruence | discriminate Hlen].
    + cbn [existsb]. cbn [forallb] in Hall'.
      apply andb_true_iff in Hall'. destruct Hall' as [H0 _].
      rewrite H0. reflexivity.
Qed.

(** C3. The code at a session without any click (two bins, both with 0
    clicks), where the claim says that nothing is flagged: the threshold
    is 0 and the inclusive test [0 >= 0] holds, so the dashboard lists both
    bins as peak bins, and the summary marks both rows High (not Clear) and
    lists both under "Key Insights" in place of the message that no spike
    was detected. *)
Theorem a_silent_session_is_listed_as_peaks :
  Forall (fun b => TADashboard.click_count b = 0) Samples.silentBins
  /\ TADashboard.threshold
       (TADashboard.stats (TADashboard.chartData Samples.silentBins) (@nil unit) 0)
     = 0
  /\ TADashboard.peakBins
       (TADashboard.stats (TADashboard.chartData Samples.silentBins) (@nil unit) 0)
     = TADashboard.chartData Samples.silentBins
  /\ length (TADashboard.chartData Samples.silentBins) = 2%nat
  /\ exists s,
       SummaryReport.summary (Some Samples.silentMeta) Samples.silentSummaryBins 0
       = Some s /\
       length (SummaryReport.data s) = 2%nat /\
       Forall (fun d => SummaryReport.count d = 0 /\
                        SummaryReport.status s d = SummaryReport.High)
              (SummaryReport.data s) /\
       SummaryReport.keyInsights s = Some (SummaryReport.data s).
Proof.
  assert (Hall : forall d, In d (TADashboard.chartData Samples.silentBins) ->
                           TADashboard.count d = 0).
  { intros d [<-|[<-|[]]]; reflexivity. }
  destruct (equal_counts_stats _ (@nil unit) 0 Hall) as (_ & Ht & Hp & Hm).
  split; [repeat constructor|].
  split; [rewrite Ht; apply Hm; discriminate|].
  split; [exact Hp|]. split; [reflexivity|].
  assert (Hs : forall b, In b Samples.silentSummaryBins ->
                         SummaryReport.click_count b = 0).
  { intros b [<-|[<-|[]]]; reflexivity. }
  assert (Hne : Samples.silentSummaryBins <> []) by discriminate.
  destruct (@equal_counts_insights Samples.silentMeta Samples.silentSummaryBins
              0 0 Hne Hs) as (s & H1 & H2 & H3 & H4).
  exists s. split; [exact H1|]. split; [exact H2|]. split; [exact H3 | exact H4].
Qed.

End EqualCounts.

(** ** Raising the count of one bin *)

Section RaisingABin.

Local Open Scope R_scope.

(** C4, amended. Raising the click count of bin [i] while the other bins
    stay as they are never lowers the mean; it never lowers the
    threshold when the count of bin [i] was at or above the mean, in
    particular when bin [i] was flagged; and a flagged bin [i] stays
    flagged when the number of bins is not two. *)
Theorem raising_a_bin_count :
  forall (bins : list TADashboard.BinRecord) (i : nat) (delta : R),
    (i < length bins)%nat -> 0 <= delta ->
    let bins' := Bins.raiseCount i delta bins in
    Bins.meanOf bins <= Bins.meanOf bins'
    /\ (Bins.meanOf bins <= nth i (map TADashboard.click_count bins) 0 ->
        Bins.thresholdOf bins <= Bins.thresholdOf bins')
    /\ (Bins.flagged bins i = true ->
        Bins.thresholdOf bins <= Bins.thresholdOf bins')
    /\ (length bins <> 2%nat -> Bins.flagged bins i = true ->
        Bins.flagged bins' i = true).
Proof.
  intros bins i delta Hi Hd bins'.
  assert (Hne : bins <> []) by (destruct bins; [simpl in Hi; lia | discriminate]).
  assert (Hne' : bins' <> []).
  { subst bins'. intros E. apply (f_equal (@length _)) in E.
    rewrite raiseCount_length in E. simpl in E. lia. }
  set (l := map TADashboard.click_count bins).
  assert (Hl : (i < length l)%nat) by (subst l; rewrite length_map; exact Hi).
  assert (Hn : 0 < INR (length l)) by (apply lt_0_INR; lia).
  rewrite (meanOf_population Hne), (meanOf_population Hne').
  rewrite (thresholdOf_population Hne), (thresholdOf_population Hne').
  subst bins'. rewrite counts_raiseCount. fold l.
  assert (Hmono : Population.mean l <= nth i l 0 ->
                  Population.threshold l
                  <= Population.threshold (Population.bump i delta l)).
  { apply threshold_bump_mono; assumption. }
  assert (Hflag : Bins.flagged bins i = true -> nth i l 0 >= Population.threshold l).
  { intros Hf. apply (flagged_iff bins Hi) in Hf.
    rewrite (thresholdOf_population Hne) in Hf. exact Hf. }
  split; [|split; [|split]].
  - rewrite (bump_mean delta l Hl).
    assert (0 <= delta / INR (length l)).
    { apply Rmult_le_pos; [exact Hd|]. left. apply Rinv_0_lt_compat. exact Hn. }
    lra.
  - exact Hmono.
  - intros Hf. apply Hmono. apply Hflag in Hf.
    unfold Population.threshold, Population.stdDev in Hf.
    apply at_or_above_threshold_iff in Hf; [tauto | apply variance_nonneg].
  - intros Hlen Hf.
    apply flagged_iff; [rewrite raiseCount_length; exact Hi|].
    rewrite (thresholdOf_population Hne'), counts_raiseCount. fold l.
    apply flagged_bump; auto.
    subst l. rewrite length_map. exact Hlen.
Qed.

Lemma evenTriple_flagged : Bins.flagged Samples.evenTriple 0 = true.
Proof.
  apply flagged_iff; [simpl; lia|].
  rewrite thresholdOf_population by discriminate.
  assert (Hall : forall x, In x (map TADashboard.click_count Samples.evenTriple) -> x = 1).
  { intros x [<-|[<-|[<-|[]]]]; reflexivity. }
  assert (Hne : map TADashboard.click_count Samples.evenTriple <> []) by discriminate.
  destruct (equal_counts_mean_variance Hne Hall) as [Hm Hv].
  unfold Population.threshold, Population.stdDev. rewrite Hm, Hv, sqrt_0.
  simpl. lra.
Qed.

Lemma raising_a_bin_count_witness :
  Bins.thresholdOf Samples.evenTriple
  <= Bins.thresholdOf (Bins.raiseCount 0 1 Samples.evenTriple)
  /\ Bins.flagged (Bins.raiseCount 0 1 Samples.evenTriple) 0 = true.
Proof.
  assert (Hi : (0 < length Samples.evenTriple)%nat) by (simpl; lia).
  assert (Hd : 0 <= 1) by lra.
  destruct (@raising_a_bin_count Samples.evenTriple 0%nat 1 Hi Hd) as (_ & _ & Ht & Hf).
  split.
  - apply Ht. exact evenTriple_flagged.
  - apply Hf; [simpl; lia | exact evenTriple_flagged].
Defined.

(** C4, the claim as stated fails twice.  Raising the first of two bins
    from 0 to 10 clicks, next to a bin with 10 clicks, lowers the
    threshold (from 11 to 10); and of two bins with one click each, both
    flagged, the one that is raised to 2 clicks is no longer flagged
    (the threshold becomes 2.1). *)
Lemma raising_can_lower_threshold_and_unflag :
  Bins.thresholdOf (Bins.raiseCount 0 10 Samples.lopsidedBins)
  < Bins.thresholdOf Samples.lopsidedBins
  /\ Bins.flagged Samples.evenPair 1 = true
  /\ Bins.flagged (Bins.raiseCount 1 1 Samples.evenPair) 1 = false.
Proof.
  split; [|split].
  - rewrite !thresholdOf_population by discriminate.
    cbn [map Bins.raiseCount Samples.lopsidedBins Samples.bin
         TADashboard.click_count].
    rewrite !threshold_pair by lra. lra.
  - apply flagged_iff; [simpl; lia|].
    rewrite thresholdOf_population by discriminate.
    cbn [map Samples.evenPair Samples.bin TADashboard.click_count nth].
    rewrite threshold_pair by lra. lra.
  - destruct (Bins.flagged (Bins.raiseCount 1 1 Samples.evenPair) 1) eqn:Hf;
      [|reflexivity].
    exfalso. apply flagged_iff in Hf; [|simpl; lia].
    rewrite thresholdOf_population in Hf by discriminate.
    cbn [map Bins.raiseCount Samples.evenPair Samples.bin
         TADashboard.click_count nth] in Hf.
    rewrite threshold_pair in Hf by lra. lra.
Qed.

End RaisingABin.

(** ** Sorting by a key (Array.prototype.sort with a difference comparator) *)

Section SortByKey.

Local Open Scope Z_scope.

Variable A : Type.
Variable key : A -> Z.


Lemma sort_insert_perm (x : A) (l : list A) :
  Permutation (JS.sort_insert (JS.byKey key) x l) (x :: l).
Proof.
  induction l as [|y l IH]; simpl.
  - apply Permutation_refl.
  - destruct ((JS.byKey key) x y <=? 0).
    + apply Permutation_refl.
    + eapply perm_trans; [apply perm_skip, IH | apply perm_swap].
Qed.

Lemma sort_perm (l : list A) : Permutation (JS.sort (JS.byKey key) l) l.
Proof.
  induction l as [|x l IH]; simpl.
  - apply perm_nil.
  - eapply perm_trans; [apply sort_insert_perm | apply perm_skip, IH].
Qed.

Lemma sort_insert_sorted (x : A) (l : list A) :
  StronglySorted (JS.ascendingBy key) l ->
  StronglySorted (JS.ascendingBy key) (JS.sort_insert (JS.byKey key) x l).
Proof.
  induction 1 as [|y l Hs IH Hall]; simpl.
  - repeat constructor.
  - destruct (Z.leb_spec ((JS.byKey key) x y) 0) as [Hle|Hgt].
    + constructor; [constructor; assumption|].
      constructor; [unfold JS.ascendingBy, JS.byKey in *; lia|].
      eapply Forall_impl; [|exact Hall].
      intros z Hz. unfold JS.ascendingBy, JS.byKey in *. lia.
    + constructor; [exact IH|].
      eapply Permutation_Forall;
        [apply Permutation_sym, sort_insert_perm|].
      constructor; [unfold JS.ascendingBy, JS.byKey in *; lia | exact Hall].
Qed.

Lemma sort_sorted (l : list A) : StronglySorted (JS.ascendingBy key) (JS.sort (JS.byKey key) l).
Proof.
  induction l as [|x l IH]; simpl.
  - constructor.
  - apply sort_insert_sorted, IH.
Qed.

(** Stability: the elements with any one key come out in the order in
    which they went in. *)
Lemma sort_insert_stable (k : Z) (x : A) (l : list A) :
  filter (fun a => key a =? k) (JS.sort_insert (JS.byKey key) x l)
  = filter (fun a => key a =? k) (x :: l).
Proof.
  induction l as [|y l IH]; [reflexivity|].
  cbn [JS.sort_insert].
  destruct (Z.leb_spec ((JS.byKey key) x y) 0) as [Hle|Hgt]; [reflexivity|].
  cbn [filter] in *. rewrite IH.
  destruct (Z.eqb_spec (key x) k) as [Hx|Hx];
    destruct (Z.eqb_spec (key y) k) as [Hy|Hy]; try reflexivity.
  unfold JS.byKey in Hgt. lia.
Qed.

Lemma sort_stable (k : Z) (l : list A) :
  filter (fun a => key a =? k) (JS.sort (JS.byKey key) l)
  = filter (fun a => key a =? k) l.
Proof.
  induction l as [|x l IH]; [reflexivity|].
  cbn [JS.sort]. rewrite sort_insert_stable. cbn [filter]. rewrite IH. reflexivity.
Qed.

End SortByKey.

(** ** The notes of the dashboard *)

Section DashboardNotes.

Local Open Scope Z_scope.

(** C5. Every note is annotated with the floor of the minutes between
    the start of the session and its creation, and the notes are shown in
    ascending order of that value (notes of the same minute in the order
    in which they arrived). *)
Theorem notes_are_annotated_and_sorted_by_minutes :
  forall (Date_parse : string -> Z) (notes : list TADashboard.NoteRecord)
         (session : TADashboard.Session),
    let start := Date_parse (TADashboard.start_time session) in
    let elapsed n := (Date_parse (TADashboard.created_at n) - start) / 60000 in
    let shown := TADashboard.notesWithTimestamps Date_parse notes session in
    Permutation (map TADashboard.note_fields shown) notes
    /\ Forall (fun x =>
                 TADashboard.minutesElapsed x = elapsed (TADashboard.note_fields x)
                 /\ 60000 * TADashboard.minutesElapsed x
                    <= Date_parse (TADashboard.created_at (TADashboard.note_fields x))
                       - start
                    < 60000 * (TADashboard.minutesElapsed x + 1)) shown
    /\ StronglySorted
         (fun a b => TADashboard.minutesElapsed a <= TADashboard.minutesElapsed b)
         shown
    /\ forall k,
         map TADashboard.note_fields
             (filter (fun x => TADashboard.minutesElapsed x =? k) shown)
         = filter (fun n => elapsed n =? k) notes.
Proof.
  intros Date_parse notes session start elapsed shown.
  set (annotate := fun n => {| TADashboard.note_fields := n;
                               TADashboard.minutesElapsed := elapsed n |}).
  assert (Hshown : shown = JS.sort (fun a b => TADashboard.minutesElapsed a
                                               - TADashboard.minutesElapsed b)
                                   (map annotate notes)) by reflexivity.
  assert (Hperm : Permutation shown (map annotate notes)).
  { rewrite Hshown. apply sort_perm. }
  split; [|split; [|split]].
  - assert (Hid : map TADashboard.note_fields (map annotate notes) = notes).
    { rewrite map_map. apply map_id. }
    eapply perm_trans; [apply Permutation_map, Hperm|].
    rewrite Hid. apply Permutation_refl.
  - eapply Permutation_Forall; [apply Permutation_sym, Hperm|].
    apply Forall_forall. intros x Hx.
    apply in_map_iff in Hx. destruct Hx as (n & <- & _).
    unfold annotate. cbn [TADashboard.minutesElapsed TADashboard.note_fields].
    split; [reflexivity|].
    unfold elapsed.
    set (d := Date_parse (TADashboard.created_at n) - start).
    pose proof (Z.div_mod d 60000 ltac:(lia)) as Hdm.
    pose proof (Z.mod_pos_bound d 60000 ltac:(lia)) as Hmb.
    lia.
  - rewrite Hshown. apply sort_sorted.
  - intros k. rewrite Hshown, sort_stable.
    clear. induction notes as [|n notes IH]; [reflexivity|].
    cbn [map filter TADashboard.minutesElapsed annotate].
    destruct (elapsed n =? k); cbn [map TADashboard.note_fields]; rewrite IH;
      reflexivity.
Qed.

End DashboardNotes.

(** ** The "Peak Confusion" tile of the summary *)

Section PeakConfusion.

Local Open Scope R_scope.

Lemma fold_max2_finite (xs : list R) (m : R) :
  fold_left JS.max2 xs (JS.Finite m) = JS.Finite (fold_left Rmax xs m).
Proof.
  revert m. induction xs as [|x xs IH]; intros m; simpl; [reflexivity|].
  apply IH.
Qed.

Lemma fold_Rmax_upper (xs : list R) (m : R) :
  m <= fold_left Rmax xs m /\ Forall (fun x => x <= fold_left Rmax xs m) xs.
Proof.
  revert m. induction xs as [|x xs IH]; intros m; simpl.
  - split; [lra | constructor].
  - destruct (IH (Rmax m x)) as [H1 H2].
    pose proof (Rmax_l m x). pose proof (Rmax_r m x).
    split; [lra|]. constructor; [lra | exact H2].
Qed.

Lemma fold_Rmax_attained (xs : list R) (m : R) :
  fold_left Rmax xs m = m \/ In (fold_left Rmax xs m) xs.
Proof.
  revert m. induction xs as [|x xs IH]; intros m; simpl; [left; reflexivity|].
  destruct (IH (Rmax m x)) as [H|H].
  - rewrite H. unfold Rmax. destruct (Rle_dec m x); auto.
  - right. right. exact H.
Qed.

(** [Math.max] over one argument or more is the largest argument. *)
Lemma Math_max_cons (x : R) (xs : list R) :
  exists m, JS.Math_max (x :: xs) = JS.Finite m /\
            In m (x :: xs) /\ Forall (fun p => p <= m) (x :: xs).
Proof.
  unfold JS.Math_max. cbn [fold_left JS.max2].
  rewrite fold_max2_finite. eexists. split; [reflexivity|].
  destruct (fold_Rmax_upper xs x) as [H1 H2].
  split.
  - destruct (fold_Rmax_attained xs x) as [H|H]; [left; auto | right; exact H].
  - constructor; assumption.
Qed.

Lemma summary_percentages (meta : SummaryReport.SessionMeta)
    (bins : list SummaryReport.BinRecord) (total : R) :
  exists s, SummaryReport.summary (Some meta) bins total = Some s /\
    map SummaryReport.percentage (SummaryReport.data s)
    = map SummaryReport.percentage_of_bin bins.
Proof.
  eexists. split; [reflexivity|]. cbn. rewrite map_map. reflexivity.
Qed.

(** C6. The "Peak Confusion" statistic of the summary is the maximum of
    the percentages of all the bins of the session: no percentage
    exceeds it, and when there is a bin it is the percentage of one of
    the bins. *)
Theorem peak_confusion_is_the_maximum_percentage :
  forall (meta : SummaryReport.SessionMeta)
         (bins : list SummaryReport.BinRecord) (total : R),
    let percentages := map SummaryReport.percentage_of_bin bins in
    exists s,
      SummaryReport.summary (Some meta) bins total = Some s /\
      SummaryReport.peakConfusion s = JS.Math_max percentages /\
      (forall p, In p percentages ->
                 JS.le (JS.Finite p) (SummaryReport.peakConfusion s)) /\
      (bins <> [] ->
       exists m, SummaryReport.peakConfusion s = JS.Finite m /\
                 In m percentages /\
                 forall p, In p percentages -> p <= m).
Proof.
  intros meta bins total percentages.
  destruct (summary_percentages meta bins total) as (s & Hs & Hp).
  exists s. split; [exact Hs|].
  assert (Hpk : SummaryReport.peakConfusion s = JS.Math_max percentages).
  { unfold SummaryReport.peakConfusion. rewrite Hp. reflexivity. }
  split; [exact Hpk|]. rewrite Hpk.
  destruct percentages as [|x xs] eqn:E.
  - split; [intros p []|].
    intros Hne. destruct bins; [congruence | discriminate].
  - destruct (Math_max_cons x xs) as (m & Hm & Hin & Hall).
    rewrite Hm. split.
    + intros p Hin'. simpl. rewrite Forall_forall in Hall. apply Hall, Hin'.
    + intros _. exists m. split; [reflexivity|]. split; [exact Hin|].
      rewrite Forall_forall in Hall. exact Hall.
Qed.

(** C10. With no bin (an analysis without bins, or with an empty list of
    bins) the "Peak Confusion" statistic is [Math.max()] of no argument:
    it is computed without a guard and without an error, and its value is
    minus infinity, not 0. *)
Theorem peak_confusion_of_no_bin_is_minus_infinity :
  forall (meta : SummaryReport.SessionMeta) (total : R),
    SummaryReport.loadedBins None = [] /\
    exists s,
      SummaryReport.summary (Some meta) [] total = Some s /\
      SummaryReport.data s = [] /\
      SummaryReport.peakConfusion s = JS.NegInfinity /\
      SummaryReport.peakConfusion s <> JS.Finite 0.
Proof.
  intros meta total. split; [reflexivity|].
  eexists. split; [reflexivity|]. cbn.
  split; [reflexivity|]. split; [reflexivity | discriminate].
Qed.

End PeakConfusion.

(** ** The join form *)

Section JoinForm.

Import Handler.
Import JoinSession.

Lemma length_string_of_list_ascii (l : list ascii) :
  String.length (string_of_list_ascii l) = List.length l.
Proof.
  induction l as [|c l IH]; simpl; [reflexivity | rewrite IH; reflexivity].
Qed.

Lemma forallb_firstn (A : Type) (p : A -> bool) (n : nat) (l : list A) :
  forallb p l = true -> forallb p (firstn n l) = true.
Proof.
  revert n. induction l as [|x l IH]; intros [|n] H; simpl in *; auto.
  apply andb_true_iff in H. destruct H as [H1 H2].
  rewrite H1. simpl. apply IH, H2.
Qed.

Lemma forallb_filter_same (A : Type) (p : A -> bool) (l : list A) :
  forallb p (filter p l) = true.
Proof.
  induction l as [|x l IH]; simpl; [reflexivity|].
  destruct (p x) eqn:E; simpl; [rewrite E|]; auto.
Qed.

(** What [handleInputChange] stores is a string of at most four digits. *)
Lemma stored_code_shape (value : string) :
  let stored := slice0 4 (strip_non_digits value) in
  (String.length stored <= 4)%nat /\ isDigits stored = true.
Proof.
  cbv zeta. unfold slice0, strip_non_digits, isDigits.
  rewrite !list_ascii_of_string_of_list_ascii, length_string_of_list_ascii.
  split.
  - apply firstn_le_length.
  - apply forallb_firstn, forallb_filter_same.
Qed.

(** A string of digits is stored as it is, up to its fourth character. *)
Lemma stored_code_of_digits (value : string) :
  isDigits value = true -> slice0 4 (strip_non_digits value) = slice0 4 value.
Proof.
  unfold slice0, strip_non_digits, isDigits. intros H.
  rewrite list_ascii_of_string_of_list_ascii.
  rewrite forallb_filter_id by exact H. reflexivity.
Qed.

Lemma step_Change (w : oracle effect) (st : State) (value : string) :
  step w st (Change value)
  = ({| code := slice0 4 (strip_non_digits value); error := "" |},
     [existT _ _ (setCode (slice0 4 (strip_non_digits value)));
      existT _ _ (setError "")]).
Proof. reflexivity. Qed.

(** A submission leaves the code alone; it sends a join request exactly
    when the code has four characters, and that request carries the
    code. *)
Lemma step_Submit (w : oracle effect) (st : State) :
  code (fst (step w st Submit)) = code st /\
  joinRequests (snd (step w st Submit))
  = if (String.length (code st) =? 4)%nat then [code st] else [].
Proof.
  unfold step, handler, handleSubmit, trace.
  destruct (String.length (code st) =? 4)%nat eqn:E; cbn.
  - destruct (w _ (fetchJoin (code st))) as [msg|ok data]; cbn.
    + split; reflexivity.
    + destruct ok; cbn; split; reflexivity.
  - split; reflexivity.
Qed.

Lemma joinRequests_app (tr1 tr2 : list (action effect)) :
  joinRequests (tr1 ++ tr2) = (joinRequests tr1 ++ joinRequests tr2)%list.
Proof. unfold joinRequests. apply flat_map_app. Qed.

Lemma steps_invariant (w : oracle effect) (evs : list UIEvent) (st : State) :
  code_ok st ->
  code_ok (fst (steps w st evs)) /\
  Forall (fun c => isJoinCode c = true) (joinRequests (snd (steps w st evs))).
Proof.
  revert st. induction evs as [|ev evs IH]; intros st Hok.
  - simpl. split; [exact Hok | constructor].
  - cbn [steps].
    destruct (step w st ev) as [st1 tr1] eqn:E1.
    assert (H1 : code_ok st1 /\ Forall (fun c => isJoinCode c = true) (joinRequests tr1)).
    { destruct ev as [value|].
      - rewrite step_Change in E1. injection E1 as <- <-.
        split; [apply stored_code_shape | constructor].
      - pose proof (step_Submit w st) as [Hc Hj]. rewrite E1 in Hc, Hj.
        cbn [fst snd] in Hc, Hj. split.
        + unfold code_ok. rewrite Hc. exact Hok.
        + rewrite Hj. destruct (String.length (code st) =? 4)%nat eqn:E4;
            constructor; [|constructor].
          unfold isJoinCode. rewrite E4. apply Hok. }
    destruct H1 as [Hok1 Hj1].
    destruct (IH st1 Hok1) as [Hok2 Hj2].
    destruct (steps w st1 evs) as [st2 tr2]. cbn [fst snd] in *.
    split; [exact Hok2|].
    rewrite joinRequests_app. apply Forall_app. split; assumption.
Qed.

(** C8. Whatever the user types, pastes or submits, the code field holds
    at most four decimal digits (what is not a digit is stripped, what
    exceeds four characters is cut); every join request that is sent
    carries exactly four decimal digits; and a submission with a code
    that does not have four characters sends no request and reports
    "Session code must be 4 digits". *)
Theorem join_code_is_four_digits_before_any_request :
  forall (w : oracle effect) (evs : list UIEvent),
    let final := fst (steps w initial evs) in
    let effects := snd (steps w initial evs) in
    ((String.length (code final) <= 4)%nat /\ isDigits (code final) = true)
    /\ Forall (fun c => isJoinCode c = true) (joinRequests effects)
    /\ (forall value,
          code (fst (step w final (Change value)))
          = slice0 4 (strip_non_digits value))
    /\ (forall st,
          (String.length (code st) =? 4)%nat = false ->
          joinRequests (snd (step w st Submit)) = [] /\
          error (fst (step w st Submit)) = "Session code must be 4 digits"%string /\
          submitDisabled st = true).
Proof.
  intros w evs final effects.
  assert (Hinit : code_ok initial) by (split; [simpl; lia | reflexivity]).
  destruct (steps_invariant w evs Hinit) as [Hok Hj].
  split; [exact Hok|]. split; [exact Hj|]. split.
  - intros value. rewrite step_Change. reflexivity.
  - intros st Hlen.
    pose proof (step_Submit w st) as [_ Hreq]. rewrite Hlen in Hreq.
    split; [exact Hreq|]. split.
    + unfold step, handler, handleSubmit, trace. rewrite Hlen. reflexivity.
    + unfold submitDisabled. rewrite Hlen. reflexivity.
Qed.

End JoinForm.

(** ** The confusion button of the student view *)

Section ConfusionButton.

Import Handler.
Import StudentView.

(** With an active session the first thing a click does is the click
    request. *)
Lemma active_click_sends_request (trim : string -> string) (session : Session)
    (st : State) (w : oracle effect) :
  active st = true ->
  exists rest,
    trace w (handleConfusionClick trim session st)
    = existT _ _ (fetchClick (session_id session) (anon_id session)) :: rest.
Proof.
  intros Ha. unfold handleConfusionClick, trace. rewrite Ha. cbn.
  destruct (run w _) as [tr u]. exists tr. reflexivity.
Qed.

(** The poll stores the flag that the server reports. *)
Lemma poll_stores_flag (session : Session) (st : State) (w : oracle effect) (b : bool) :
  w _ (fetchSession (session_id session)) = Response true {| is_active := Some b |} ->
  active (fold_left apply (trace w (check session true)) st) = b.
Proof.
  intros Hw. unfold check, trace. cbn. rewrite Hw. reflexivity.
Qed.

(** C9. While the polled flag [active] is false, a confusion click only
    shows the alert: it sends no request, hands no click to the parent and
    changes no state; and the button is disabled. *)
Theorem inactive_click_submits_nothing :
  forall (trim : string -> string) (session : Session) (st : State)
         (w : oracle effect),
    active st = false ->
    let effects := trace w (handleConfusionClick trim session st) in
    effects = [existT _ _ (alert "Session is not active. You cannot submit feedback yet.")]
    /\ forallb (fun a => negb (isRequest a) && negb (isClickEvent a)) effects = true
    /\ fold_left apply effects st = st
    /\ buttonDisabled st = true.
Proof.
  intros trim session st w Ha effects.
  assert (He : effects
    = [existT _ _ (alert "Session is not active. You cannot submit feedback yet.")]).
  { subst effects. unfold handleConfusionClick, trace. rewrite Ha. reflexivity. }
  rewrite He. repeat split.
  unfold buttonDisabled. rewrite Ha. reflexivity.
Qed.

Lemma inactive_click_submits_nothing_witness :
  active Samples.polledInactive = false
  /\ forallb (fun a => negb (isRequest a) && negb (isClickEvent a))
       (trace Samples.notStartedWorld
          (handleConfusionClick (fun s => s) Samples.studentSession
             Samples.polledInactive)) = true
  /\ buttonDisabled Samples.polledInactive = true.
Proof.
  assert (Ha : active Samples.polledInactive = false) by reflexivity.
  destruct (@inactive_click_submits_nothing (fun s => s) Samples.studentSession
              Samples.polledInactive Samples.notStartedWorld Ha)
    as (_ & Hq & _ & Hd).
  exact (conj Ha (conj Hq Hd)).
Defined.

End ConfusionButton.

(** ** The registry: lookups after an update *)

Section RegistryLookups.

Import SessionRegistry.

Lemma getSession_identifier (id : nat) (reg : Registry) (s : Session) :
  getSession id reg = Some s -> identifier s = id.
Proof.
  unfold getSession. intros H. apply find_some in H. destruct H as [_ H].
  apply Nat.eqb_eq in H. exact H.
Qed.

Lemma getSession_In (id : nat) (reg : Registry) (s : Session) :
  getSession id reg = Some s -> In s reg.
Proof.
  unfold getSession. intros H. apply find_some in H. tauto.
Qed.

Lemma getSession_store_same (id : nat) (reg : Registry) (s s' : Session) :
  getSession id reg = Some s -> identifier s' = id ->
  getSession id (store s' reg) = Some s'.
Proof.
  unfold getSession, store. intros Hg Hid. subst id.
  induction reg as [|y reg IH]; simpl in *; [discriminate|].
  destruct (Nat.eqb_spec (identifier y) (identifier s')) as [Hy|Hy].
  - rewrite Nat.eqb_refl. reflexivity.
  - destruct (Nat.eqb_spec (identifier y) (identifier s')); [contradiction|].
    apply IH, Hg.
Qed.

Lemma getSession_store_other (id : nat) (reg : Registry) (s' : Session) :
  identifier s' <> id ->
  getSession id (store s' reg) = getSession id reg.
Proof.
  unfold getSession, store. intros Hid.
  induction reg as [|y reg IH]; simpl; [reflexivity|].
  destruct (Nat.eqb_spec (identifier y) (identifier s')) as [Hy|Hy].
  - destruct (Nat.eqb_spec (identifier s') id); [contradiction|].
    destruct (Nat.eqb_spec (identifier y) id); [congruence | exact IH].
  - destruct (Nat.eqb_spec (identifier y) id); [reflexivity | exact IH].
Qed.

Lemma getSession_app (id : nat) (reg more : Registry) (s : Session) :
  getSession id reg = Some s -> getSession id (reg ++ more) = Some s.
Proof.
  unfold getSession. intros H.
  induction reg as [|y reg IH]; simpl in *; [discriminate|].
  destruct (identifier y =? id)%nat; [exact H | apply IH, H].
Qed.

Lemma In_store (x s' : Session) (reg : Registry) :
  In x (store s' reg) -> x = s' \/ In x reg.
Proof.
  unfold store. intros H. apply in_map_iff in H. destruct H as (y & Hy & Hin).
  destruct (identifier y =? identifier s')%nat; [left; congruence|].
  right. subst x. exact Hin.
Qed.

(** Activation of a session that has not started: the answer and the
    stored record carry the clock reading. *)
Lemma activateSession_not_started (now : Z) (id : nat) (reg : Registry) (s : Session) :
  getSession id reg = Some s -> state s = NotStarted ->
  exists s',
    activateSession now id reg = (store s' reg, inl s') /\
    getSession id (store s' reg) = Some s' /\
    identifier s' = id /\
    state s' = Active /\ start_timestamp s' = Some now.
Proof.
  intros Hg Hs. unfold activateSession. rewrite Hg, Hs.
  eexists. split; [reflexivity|].
  split; [|repeat split; try reflexivity; cbn; eapply getSession_identifier; eauto].
  eapply getSession_store_same; [exact Hg|].
  cbn. eapply getSession_identifier; eauto.
Qed.

(** Activation of a session that is active or ended is refused and changes
    nothing. *)
Lemma activateSession_again (now : Z) (id : nat) (reg : Registry) (s : Session) :
  getSession id reg = Some s -> state s <> NotStarted ->
  activateSession now id reg = (reg, inr InvalidStateError).
Proof.
  intros Hg Hs. unfold activateSession. rewrite Hg.
  destruct (state s); [contradiction | reflexivity | reflexivity].
Qed.

(** Activation of an unknown session. *)
Lemma activateSession_unknown (now : Z) (id : nat) (reg : Registry) :
  getSession id reg = None ->
  activateSession now id reg = (reg, inr NotFoundError).
Proof.
  intros Hg. unfold activateSession. rewrite Hg. reflexivity.
Qed.

Lemma call_keeps_stamp (id : nat) (now : Z) (c : Call) (reg : Registry) :
  stamped id now reg -> stamped id now (call c reg).
Proof.
  intros (s & Hg & Hst & Hne).
  destruct c as [newCode course date d creator | t id' | t id']; cbn [call].
  - unfold createSession.
    destruct ((15 <=? d)%Z && (d <=? 180)%Z); cbn [fst].
    + exists s. split; [apply getSession_app, Hg | tauto].
    + exists s. tauto.
  - destruct (Nat.eq_dec id' id) as [->|Hid].
    + rewrite (@activateSession_again t id reg s Hg Hne). exists s. tauto.
    + unfold activateSession.
      destruct (getSession id' reg) as [s2|] eqn:Hg2; [|exists s; tauto].
      destruct (state s2); cbn [fst]; try (exists s; tauto).
      exists s. split; [|tauto].
      rewrite getSession_store_other; [exact Hg|].
      cbn. rewrite (@getSession_identifier id' reg s2 Hg2). exact Hid.
  - unfold endSession.
    destruct (getSession id' reg) as [s2|] eqn:Hg2; [|exists s; tauto].
    destruct (state s2) eqn:Hs2; cbn [fst]; try (exists s; tauto).
    destruct (Nat.eq_dec id' id) as [->|Hid].
    + assert (s2 = s) by congruence. subst s2.
      eexists. split; [eapply getSession_store_same; [exact Hg|]|].
      * cbn. eapply getSession_identifier; eauto.
      * cbn. split; [exact Hst | discriminate].
    + exists s. split; [|tauto].
      rewrite getSession_store_other; [exact Hg|].
      cbn. rewrite (@getSession_identifier id' reg s2 Hg2). exact Hid.
Qed.

Lemma calls_keep_stamp (id : nat) (now : Z) (cs : list Call) (reg : Registry) :
  stamped id now reg -> stamped id now (calls cs reg).
Proof.
  unfold calls. revert reg.
  induction cs as [|c cs IH]; intros reg H; simpl; [exact H|].
  apply IH, call_keeps_stamp, H.
Qed.

Lemma call_keeps_unstamped (c : Call) (reg : Registry) :
  unstampedUntilStarted reg -> unstampedUntilStarted (call c reg).
Proof.
  intros Hinv.
  destruct c as [newCode course date d creator | t id' | t id']; cbn [call].
  - unfold createSession.
    destruct ((15 <=? d)%Z && (d <=? 180)%Z); cbn [fst]; [|exact Hinv].
    intros x Hx Hs. apply in_app_or in Hx. destruct Hx as [Hx|[<-|[]]].
    + apply Hinv; assumption.
    + reflexivity.
  - unfold activateSession.
    destruct (getSession id' reg) as [s2|]; [|exact Hinv].
    destruct (state s2); cbn [fst]; try exact Hinv.
    intros x Hx Hs. apply In_store in Hx. destruct Hx as [->|Hx].
    + discriminate.
    + apply Hinv; assumption.
  - unfold endSession.
    destruct (getSession id' reg) as [s2|]; [|exact Hinv].
    destruct (state s2); cbn [fst]; try exact Hinv.
    intros x Hx Hs. apply In_store in Hx. destruct Hx as [->|Hx].
    + discriminate.
    + apply Hinv; assumption.
Qed.

Lemma calls_keep_unstamped (cs : list Call) (reg : Registry) :
  unstampedUntilStarted reg -> unstampedUntilStarted (calls cs reg).
Proof.
  unfold calls. revert reg.
  induction cs as [|c cs IH]; intros reg H; simpl; [exact H|].
  apply IH, call_keeps_unstamped, H.
Qed.

End RegistryLookups.

(** ** Starting a session *)

Section StartingASession.

Import Handler.

(** What the start request is answered with when the session has not
    started: the session as activated at [now]. *)
Lemma putStart_not_started (toISOString : Z -> string) (now : Z)
    (reg : SessionRegistry.Registry) (id : nat) (s : SessionRegistry.Session) :
  SessionRegistry.getSession id reg = Some s ->
  SessionRegistry.state s = SessionRegistry.NotStarted ->
  exists s',
    SessionRegistry.activateSession now id reg = (SessionRegistry.store s' reg, inl s') /\
    SessionRegistry.start_timestamp s' = Some now /\
    Transport.putStart toISOString now reg id
    = (SessionRegistry.store s' reg,
       Response true
         {| SessionCreator.session := Some (Transport.backendSession toISOString s') |}).
Proof.
  intros Hg Hs.
  destruct (@activateSession_not_started now id reg s Hg Hs)
    as (s' & Ha & _ & _ & _ & Hst).
  exists s'. split; [exact Ha|]. split; [exact Hst|].
  unfold Transport.putStart. rewrite Ha. reflexivity.
Qed.

(** What [handleStartSession] hands to [onCreateSession] when the answer
    has no [session]: the session that [handleGenerate] made up, whose
    start time is midnight of the recitation date. *)
Lemma handleStartSession_fallback (w : oracle SessionCreator.effect)
    (generated : SessionCreator.BackendSession) :
  w _ (SessionCreator.fetchStart (SessionCreator.session_id generated))
  = Response true {| SessionCreator.session := None |} ->
  SessionCreator.createdSessions
    (trace w (SessionCreator.handleStartSession (Some generated)))
  = [generated].
Proof.
  intros Hw. unfold SessionCreator.handleStartSession, trace. cbn.
  rewrite Hw. reflexivity.
Qed.

(** A start request that is refused opens no dashboard. *)
Lemma handleStartSession_refused (w : oracle SessionCreator.effect)
    (generated : SessionCreator.BackendSession) (data : SessionCreator.StartData) :
  w _ (SessionCreator.fetchStart (SessionCreator.session_id generated))
  = Response false data ->
  SessionCreator.createdSessions
    (trace w (SessionCreator.handleStartSession (Some generated)))
  = [].
Proof.
  intros Hw. unfold SessionCreator.handleStartSession, trace. cbn.
  rewrite Hw. reflexivity.
Qed.

(** C7. Activating a session that has not started stamps its start
    timestamp with the clock reading of the transition; no later call
    changes the stamp (a second activation is refused), and no session
    carries a stamp before it is started.  The session that the start
    request returns is the one the dashboard receives, and the minutes of
    the notes are counted from that stamp. *)
Theorem activation_stamps_the_start_used_by_the_dashboard :
  forall (toISOString : Z -> string) (Date_parse : string -> Z)
         (reg : SessionRegistry.Registry) (s : SessionRegistry.Session) (now : Z)
         (generated : SessionCreator.BackendSession)
         (other : oracle SessionCreator.effect) (app : App.State)
         (notes : list TADashboard.NoteRecord),
    SessionRegistry.getSession (SessionCreator.session_id generated) reg = Some s ->
    SessionRegistry.state s = SessionRegistry.NotStarted ->
    Date_parse (toISOString now) = now ->
    let id := SessionCreator.session_id generated in
    let reg' := fst (SessionRegistry.activateSession now id reg) in
    (exists s',
        snd (SessionRegistry.activateSession now id reg) = inl s' /\
        SessionRegistry.getSession id reg' = Some s' /\
        SessionRegistry.state s' = SessionRegistry.Active /\
        SessionRegistry.start_timestamp s' = Some now)
    /\ (forall cs, exists s'',
          SessionRegistry.getSession id (SessionRegistry.calls cs reg') = Some s'' /\
          SessionRegistry.start_timestamp s'' = Some now)
    /\ (forall later,
          SessionRegistry.activateSession later id reg'
          = (reg', inr SessionRegistry.InvalidStateError))
    /\ (forall cs, SessionRegistry.unstampedUntilStarted (SessionRegistry.calls cs []))
    /\ exists sess ds,
         SessionCreator.createdSessions
           (trace (Transport.world toISOString now reg other)
                  (SessionCreator.handleStartSession (Some generated))) = [sess]
         /\ App.dashboardSession (App.handleCreateSession sess app) = Some ds
         /\ Date_parse (TADashboard.start_time ds) = now
         /\ TADashboard.notesWithTimestamps Date_parse notes ds
            = JS.sort (JS.byKey TADashboard.minutesElapsed)
                (map (fun n =>
                        {| TADashboard.note_fields := n;
                           TADashboard.minutesElapsed :=
                             ((Date_parse (TADashboard.created_at n) - now) / 60000)%Z |})
                     notes).
Proof.
  intros toISOString Date_parse reg s now generated other app notes Hg Hs Hrt id reg'.
  destruct (@activateSession_not_started now id reg s Hg Hs)
    as (s' & Ha & Hg' & Hid & Hact & Hst).
  assert (Hreg' : reg' = SessionRegistry.store s' reg).
  { subst reg'. rewrite Ha. reflexivity. }
  assert (Hstamped : SessionRegistry.stamped id now reg').
  { exists s'. rewrite Hreg'. split; [exact Hg'|]. split; [exact Hst|].
    rewrite Hact. discriminate. }
  split; [|split; [|split; [|split]]].
  - exists s'. rewrite Ha, Hreg'. cbn [snd]. auto.
  - intros cs.
    destruct (@calls_keep_stamp id now cs reg' Hstamped) as (s'' & H1 & H2 & _).
    exists s''. auto.
  - intros later. rewrite Hreg'.
    apply (@activateSession_again later id _ s' Hg').
    rewrite Hact. discriminate.
  - intros cs. apply calls_keep_unstamped. intros x [].
  - destruct (@putStart_not_started toISOString now reg id s Hg Hs)
      as (s2 & Ha2 & Hst2 & Hput).
    exists (Transport.backendSession toISOString s2).
    eexists. split; [|split; [|split]].
    + unfold SessionCreator.handleStartSession, trace. cbn.
      fold id. rewrite Hput. reflexivity.
    + unfold App.dashboardSession, App.handleCreateSession. cbn.
      rewrite Hst2. cbn. reflexivity.
    + cbn. exact Hrt.
    + unfold TADashboard.notesWithTimestamps. cbn [TADashboard.start_time].
      rewrite Hrt. reflexivity.
Qed.

Lemma activation_stamps_the_start_used_by_the_dashboard_witness :
  exists sess ds,
    SessionCreator.createdSessions
      (trace (Transport.world Samples.toTally 5 Samples.oneSession Samples.idleWorld)
             (SessionCreator.handleStartSession (Some Samples.generated))) = [sess]
    /\ App.dashboardSession (App.handleCreateSession sess App.initial) = Some ds
    /\ Samples.ofTally (TADashboard.start_time ds) = 5%Z.
Proof.
  destruct (@activation_stamps_the_start_used_by_the_dashboard
              Samples.toTally Samples.ofTally Samples.oneSession _ 5%Z
              Samples.generated Samples.idleWorld App.initial []
              eq_refl eq_refl eq_refl)
    as (_ & _ & _ & _ & sess & ds & H1 & H2 & H3 & _).
  exists sess, ds. exact (conj H1 (conj H2 H3)).
Defined.

End StartingASession.

(** ** The examples, run in binary64 arithmetic *)

Section Binary64Examples.

Import PrimFloat.

(** Two bins without a click: the threshold is 0 and both are flagged. *)
Example float64_silent_bins :
  Float64.threshold [0%float; 0%float] = 0%float /\
  Float64.flags [0%float; 0%float] = [true; true].
Proof. vm_compute. split; reflexivity. Qed.

(** Raising the first of the counts 0 and 10 to 10 lowers the threshold
    from 11 to 10. *)
Example float64_threshold_drops :
  Float64.threshold [0%float; 10%float] = 11%float /\
  Float64.threshold [10%float; 10%float] = 10%float.
Proof. vm_compute. split; reflexivity. Qed.

(** Of two bins with one click each both are flagged; with the second
    raised to 2 the threshold exceeds 2 and no bin is flagged. *)
Example float64_raised_bin_unflagged :
  Float64.flags [1%float; 1%float] = [true; true] /\
  ltb 2%float (Float64.threshold [1%float; 2%float]) = true /\
  Float64.flags [1%float; 2%float] = [false; false].
Proof. vm_compute. repeat split; reflexivity. Qed.

End Binary64Examples.

(** * Further properties of the components *)

(** ** The threshold and the mean *)

Section ThresholdAndMean.

Local Open Scope R_scope.

Lemma sum_lower_bound (lo : R) (l : list R) :
  (forall x, In x l -> lo <= x) -> INR (length l) * lo <= Population.sum l.
Proof.
  induction l as [|x l IH]; intros H.
  - simpl. lra.
  - cbn [length Population.sum]. rewrite S_INR.
    assert (lo <= x) by (apply H; left; reflexivity).
    assert (INR (length l) * lo <= Population.sum l).
    { apply IH. intros y Hy. apply H. right. exact Hy. }
    lra.
Qed.

Lemma sum_positive (l : list R) :
  (forall x, In x l -> 0 <= x) -> (exists x, In x l /\ 0 < x) ->
  0 < Population.sum l.
Proof.
  induction l as [|x l IH]; intros Hnn (y & Hy & Hpos).
  - destruct Hy.
  - cbn [Population.sum].
    assert (0 <= x) by (apply Hnn; left; reflexivity).
    assert (Hl : 0 <= Population.sum l).
    { pose proof (@sum_lower_bound 0 l) as Hb.
      rewrite Rmult_0_r in Hb. apply Hb. intros z Hz. apply Hnn. right. exact Hz. }
    destruct Hy as [->|Hy]; [lra|].
    assert (0 < Population.sum l).
    { apply IH; [intros z Hz; apply Hnn; right; exact Hz | exists y; auto]. }
    lra.
Qed.

Lemma stats_stdDev_nonneg (Click : Type) (cd : list TADashboard.ChartDatum)
    (clicks : list Click) (n : nat) :
  0 <= TADashboard.stdDev (TADashboard.stats cd clicks n).
Proof. cbn. apply sqrt_pos. Qed.

Lemma peak_bins_above_mean_aux (Click : Type) (cd : list TADashboard.ChartDatum)
    (clicks : list Click) (n : nat) :
  let st := TADashboard.stats cd clicks n in
  TADashboard.mean st <= TADashboard.threshold st /\
  forall d, In d (TADashboard.peakBins st) ->
            TADashboard.mean st <= TADashboard.count d.
Proof.
  intros st.
  pose proof (stats_stdDev_nonneg cd clicks n) as Hs. fold st in Hs.
  assert (Ht : TADashboard.threshold st
               = TADashboard.mean st + 1.2 * TADashboard.stdDev st) by reflexivity.
  split; [lra|].
  intros d Hd.
  change (TADashboard.peakBins st)
    with (filter (fun d => JS.geb (TADashboard.count d) (TADashboard.threshold st)) cd)
    in Hd.
  apply filter_In in Hd. destruct Hd as [_ Hg]. apply geb_true_iff in Hg. lra.
Qed.

(** X1. The standard deviation is never negative, so the threshold is
    never below the mean and every peak bin has at least the mean number
    of clicks. *)
Theorem peak_bins_are_at_or_above_the_mean :
  forall (Click : Type) (cd : list TADashboard.ChartDatum)
         (clicks : list Click) (totalStudents : nat),
    let st := TADashboard.stats cd clicks totalStudents in
    0 <= TADashboard.stdDev st /\
    TADashboard.mean st <= TADashboard.threshold st /\
    forall d, In d (TADashboard.peakBins st) ->
              TADashboard.mean st <= TADashboard.count d.
Proof.
  intros Click cd clicks n st.
  split; [apply stats_stdDev_nonneg|].
  apply (@peak_bins_above_mean_aux Click cd clicks n).
Qed.

(** X2. When no count is negative and some bin has a click, the threshold
    is positive, so a bin without clicks is never a peak bin. *)
Theorem bins_without_clicks_are_no_peaks_once_there_is_a_click :
  forall (Click : Type) (cd : list TADashboard.ChartDatum)
         (clicks : list Click) (totalStudents : nat),
    (forall d, In d cd -> 0 <= TADashboard.count d) ->
    (exists d, In d cd /\ 0 < TADashboard.count d) ->
    let st := TADashboard.stats cd clicks totalStudents in
    0 < TADashboard.mean st /\
    0 < TADashboard.threshold st /\
    forall d, In d (TADashboard.peakBins st) -> 0 < TADashboard.count d.
Proof.
  intros Click cd clicks n Hnn (d0 & Hd0 & Hpos) st.
  assert (Hne : cd <> []) by (intros E; rewrite E in Hd0; exact Hd0).
  destruct (stats_nonempty clicks n Hne) as (Hm & _ & _). fold st in Hm.
  assert (Hmean : 0 < TADashboard.mean st).
  { rewrite Hm. unfold Population.mean. apply Rmult_lt_0_compat.
    - apply sum_positive.
      + intros x Hx. apply in_map_iff in Hx. destruct Hx as (d & <- & Hd). auto.
      + exists (TADashboard.count d0). split; [apply in_map; exact Hd0 | exact Hpos].
    - apply Rinv_0_lt_compat, length_pos_INR.
      destruct cd; [congruence | discriminate]. }
  destruct (@peak_bins_above_mean_aux Click cd clicks n) as (Hle & Hpk).
  fold st in Hle, Hpk.
  split; [exact Hmean|]. split; [lra|].
  intros d Hd. specialize (Hpk d Hd). lra.
Qed.

End ThresholdAndMean.

Lemma bins_without_clicks_are_no_peaks_once_there_is_a_click_witness :
  let st := TADashboard.stats (TADashboard.chartData Samples.lopsidedBins)
                              (@nil unit) 0 in
  (0 < TADashboard.mean st)%R /\
  (0 < TADashboard.threshold st)%R /\
  forall d, In d (TADashboard.peakBins st) -> (0 < TADashboard.count d)%R.
Proof.
  apply (@bins_without_clicks_are_no_peaks_once_there_is_a_click unit
           (TADashboard.chartData Samples.lopsidedBins) nil 0%nat).
  - intros d [<-|[<-|[]]]; simpl; lra.
  - exists (TADashboard.mkDatum 1 10 (1, 1 + 1)%R).
    split; [right; left; reflexivity | simpl; lra].
Defined.

(** ** How many bins can be peaks *)

Section HowManyPeaks.

Local Open Scope R_scope.

Lemma sum_split (f : R -> R) (p : R -> bool) (l : list R) :
  Population.sum (map f l)
  = Population.sum (map f (filter p l))
    + Population.sum (map f (filter (fun x => negb (p x)) l)).
Proof.
  induction l as [|x l IH]; simpl; [lra|].
  destruct (p x); simpl; rewrite IH; lra.
Qed.

Lemma length_split (p : R -> bool) (l : list R) :
  INR (length l)
  = INR (length (filter p l)) + INR (length (filter (fun x => negb (p x)) l)).
Proof.
  induction l as [|x l IH]; [simpl; lra|].
  cbn [length filter]. rewrite S_INR, IH.
  destruct (p x); cbn [negb length]; rewrite S_INR; lra.
Qed.

(** Cauchy and Schwarz, for a list against the list of ones. *)
Lemma square_of_sum (l : list R) :
  Population.sum l * Population.sum l
  <= INR (length l) * Population.sum (map (fun x => x * x) l).
Proof.
  destruct l as [|y l'] eqn:E; [simpl; lra|]. rewrite <- E.
  assert (Hn : 0 < INR (length l)).
  { rewrite E. apply length_pos_INR. discriminate. }
  pose proof (deviations_nonneg (Population.sum l / INR (length l)) l) as Hnn.
  rewrite (deviations_shift 0 (Population.sum l / INR (length l)) l) in Hnn.
  assert (Hq : Population.squaredDeviations 0 l
               = Population.sum (map (fun x => x * x) l)).
  { unfold Population.squaredDeviations. f_equal. apply map_ext. intros x. lra. }
  rewrite Hq in Hnn.
  set (S := Population.sum l) in *. set (n := INR (length l)) in *.
  set (Q := Population.sum (map (fun x => x * x) l)) in *.
  assert (Hc : n * (S / n) = S) by (field; lra).
  assert (Hexp : Q + 2 * (0 - S / n) * (S - n * 0) + n * ((0 - S / n) * (0 - S / n))
                 = Q - S * (S / n)).
  { replace (n * ((0 - S / n) * (0 - S / n))) with ((n * (S / n)) * (S / n)) by ring.
    rewrite Hc. ring. }
  rewrite Hexp in Hnn.
  assert (Hm : n * (S * (S / n)) = S * S).
  { replace (n * (S * (S / n))) with (S * (n * (S / n))) by ring. rewrite Hc. ring. }
  assert (0 <= n * (Q - S * (S / n))) by (apply Rmult_le_pos; lra).
  lra.
Qed.

(** The values at or above [m + s]: their deviations from [m] add up to
    at least [s] each, and so do the squares, to [s * s] each. *)
Lemma deviations_of_the_high (m s : R) (l : list R) :
  0 <= s ->
  let high := filter (fun x => JS.geb x (m + s)) l in
  INR (length high) * s <= Population.sum (map (fun x => x - m) high) /\
  INR (length high) * (s * s)
  <= Population.sum (map (fun x => (x - m) * (x - m)) high).
Proof.
  intros Hs. cbv zeta.
  induction l as [|x l IH]; [simpl; lra|].
  cbn [filter]. destruct (JS.geb x (m + s)) eqn:E; [|exact IH].
  apply geb_true_iff in E.
  cbn [length map Population.sum]. rewrite S_INR.
  destruct IH as [IH1 IH2]. split; [lra|]. nra.
Qed.

(** Cantelli's bound for the rule "mean + 1.2 deviations": with a
    positive variance, the values at or above the threshold are at most
    25 in 61. *)
Lemma high_values_are_few (l : list R) :
  0 < Population.variance l ->
  2.44 * INR (length (filter (fun x => JS.geb x (Population.threshold l)) l))
  <= INR (length l).
Proof.
  intros Hv.
  assert (Hne : l <> []).
  { intros ->. unfold Population.variance, Population.squaredDeviations in Hv.
    simpl in Hv. rewrite Rdiv_0_l in Hv. lra. }
  pose proof (length_pos_INR Hne) as Hn.
  set (m := Population.mean l). set (v := Population.variance l) in *.
  set (sd := sqrt v).
  assert (Hsd : 0 < sd) by (apply sqrt_lt_R0; exact Hv).
  assert (Hsd2 : sd * sd = v) by (apply sqrt_sqrt; lra).
  set (s := 1.2 * sd).
  assert (Hs : 0 <= s) by (unfold s; lra).
  assert (Hth : Population.threshold l = m + s) by reflexivity.
  rewrite Hth.
  set (p := fun x => JS.geb x (m + s)).
  destruct (@deviations_of_the_high m s l Hs) as [HA HQF]. fold p in HA, HQF.
  pose proof (length_split p l) as Hlen.
  pose proof (sum_split (fun x => x - m) p l) as Hsum.
  pose proof (sum_split (fun x => (x - m) * (x - m)) p l) as Hsq.
  (* the deviations add up to 0, their squares to n * v *)
  assert (Hzero : Population.sum (map (fun x => x - m) l) = 0).
  { assert (Hgen : forall l0 c, Population.sum (map (fun x => x - c) l0)
                                = Population.sum l0 - INR (length l0) * c).
    { induction l0 as [|y l0 IH0]; intros c; [simpl; lra|].
      cbn [map Population.sum length]. rewrite S_INR, IH0. lra. }
    rewrite Hgen. unfold m, Population.mean. field. lra. }
  assert (Hnv : Population.sum (map (fun x => (x - m) * (x - m)) l)
                = INR (length l) * v).
  { unfold v, Population.variance, Population.squaredDeviations. fold m.
    field. lra. }
  (* Cauchy and Schwarz on the values below the threshold *)
  pose proof (square_of_sum
                (map (fun x => x - m) (filter (fun x => negb (p x)) l))) as Hcs.
  rewrite length_map, map_map in Hcs.
  set (kF := INR (length (filter p l))) in *.
  set (kN := INR (length (filter (fun x => negb (p x)) l))) in *.
  set (A := Population.sum (map (fun x => x - m) (filter p l))) in *.
  set (B := Population.sum (map (fun x => x - m) (filter (fun x => negb (p x)) l))) in *.
  set (QF := Population.sum (map (fun x => (x - m) * (x - m)) (filter p l))) in *.
  set (QN := Population.sum
               (map (fun x => (x - m) * (x - m)) (filter (fun x => negb (p x)) l))) in *.
  assert (HkF : 0 <= kF) by (apply pos_INR).
  assert (HkN : 0 <= kN) by (apply pos_INR).
  assert (Hs2 : s * s = 1.44 * v) by (unfold s; nra).
  assert (HB : B = - A) by lra.
  assert (HA0 : 0 <= kF * s) by (apply Rmult_le_pos; lra).
  assert (HAA : (kF * s) * (kF * s) <= A * A) by nra.
  assert (HBB : B * B = A * A) by (rewrite HB; ring).
  (* kN * QN >= kF^2 * s^2 and QN <= n v - kF s^2 *)
  assert (H1 : (kF * kF) * (1.44 * v) <= kN * QN).
  { rewrite <- Hs2. nra. }
  assert (H2 : QN <= (kF + kN) * v - kF * (1.44 * v)).
  { rewrite <- Hs2. rewrite <- Hlen. lra. }
  assert (H3 : kN * QN <= kN * ((kF + kN) * v - kF * (1.44 * v))).
  { apply Rmult_le_compat_l; lra. }
  assert (H4 : 0 <= v * ((kN - 1.44 * kF) * (kN + kF))) by nra.
  assert (H5 : 0 <= (kN - 1.44 * kF) * (kN + kF)).
  { destruct (Rle_lt_dec 0 ((kN - 1.44 * kF) * (kN + kF))) as [Hok|Hbad]; [exact Hok|].
    exfalso. assert (v * ((kN - 1.44 * kF) * (kN + kF)) < 0); [|lra].
    replace (v * ((kN - 1.44 * kF) * (kN + kF)))
      with (- (v * (- ((kN - 1.44 * kF) * (kN + kF))))) by ring.
    assert (0 < v * (- ((kN - 1.44 * kF) * (kN + kF)))); [|lra].
    apply Rmult_lt_0_compat; lra. }
  assert (Hpos : 0 < kN + kF) by lra.
  assert (H6 : 0 <= kN - 1.44 * kF).
  { destruct (Rle_lt_dec 0 (kN - 1.44 * kF)) as [Hok|Hbad]; [exact Hok|].
    exfalso. assert (0 < (- (kN - 1.44 * kF)) * (kN + kF)); [|lra].
    apply Rmult_lt_0_compat; lra. }
  lra.
Qed.

(** A list whose squared deviations from [c] add up to 0 holds [c] only. *)
Lemma no_deviation (c : R) (l : list R) :
  Population.squaredDeviations c l = 0 -> forall x, In x l -> x = c.
Proof.
  unfold Population.squaredDeviations.
  induction l as [|y l IH]; intros H x Hx; [destruct Hx|].
  cbn [map Population.sum] in H.
  pose proof (deviations_nonneg c l) as Hl. unfold Population.squaredDeviations in Hl.
  pose proof (Rle_0_sqr (y - c)) as Hy. unfold Rsqr in Hy.
  destruct Hx as [<-|Hx].
  - assert (Hz : (y - c) * (y - c) = 0) by lra.
    apply Rmult_integral in Hz. destruct Hz; lra.
  - apply IH; [lra | exact Hx].
Qed.

End HowManyPeaks.

Section PeaksAreFew.

Local Open Scope R_scope.

Lemma peak_count_of_counts (t : R) (cd : list TADashboard.ChartDatum) :
  length (filter (fun d => JS.geb (TADashboard.count d) t) cd)
  = length (filter (fun x => JS.geb x t) (map TADashboard.count cd)).
Proof.
  induction cd as [|d cd IH]; [reflexivity|].
  cbn [map filter]. destruct (JS.geb (TADashboard.count d) t); simpl; rewrite IH;
    reflexivity.
Qed.

(** X3. Either all bins have the same count, and then every bin is a peak
    bin; or the counts differ, and then at most 25 bins in 61 (41 per cent)
    are peak bins. *)
Theorem peak_bins_are_all_or_few :
  forall (Click : Type) (cd : list TADashboard.ChartDatum)
         (clicks : list Click) (totalStudents : nat),
    let st := TADashboard.stats cd clicks totalStudents in
    (TADashboard.stdDev st = 0 /\
     TADashboard.peakBins st = cd /\
     forall d, In d cd -> TADashboard.count d = TADashboard.mean st)
    \/ (0 < TADashboard.stdDev st /\
        (61 * length (TADashboard.peakBins st) <= 25 * length cd)%nat).
Proof.
  intros Click cd clicks n st.
  assert (Hcases : cd = [] \/ cd <> []).
  { destruct cd; [left; reflexivity | right; discriminate]. }
  destruct Hcases as [Hnil | Hne].
  - left. subst cd st. cbn. rewrite sqrt_0. repeat split. intros d [].
  - destruct (stats_nonempty clicks n Hne) as (Hm & Hs & Ht). fold st in Hm, Hs, Ht.
    set (l := map TADashboard.count cd) in *.
    assert (Hl : l <> []) by (subst l; destruct cd; [congruence | discriminate]).
    pose proof (length_pos_INR Hl) as Hn.
    pose proof (variance_nonneg l) as Hv.
    destruct Hv as [Hpos | Hzero].
    + right.
      assert (Hsd : 0 < TADashboard.stdDev st).
      { rewrite Hs. unfold Population.stdDev. apply sqrt_lt_R0. exact Hpos. }
      split; [exact Hsd|].
      pose proof (high_values_are_few Hpos) as Hfew.
      change (TADashboard.peakBins st)
        with (filter (fun d => JS.geb (TADashboard.count d) (TADashboard.threshold st)) cd).
      rewrite peak_count_of_counts, Ht. fold l.
      assert (Hlen : length cd = length l) by (subst l; rewrite length_map; reflexivity).
      rewrite Hlen.
      apply INR_le. rewrite !mult_INR.
      rewrite (INR_IZR_INZ 61), (INR_IZR_INZ 25). cbn [Z.of_nat Pos.of_succ_nat Pos.succ].
      lra.
    + left.
      assert (Hall : forall x, In x l -> x = Population.mean l).
      { apply no_deviation.
        unfold Population.variance in Hzero.
        assert (Hsq : Population.squaredDeviations (Population.mean l) l
                      = (Population.squaredDeviations (Population.mean l) l
                         / INR (length l)) * INR (length l)) by (field; lra).
        rewrite Hsq, <- Hzero. ring. }
      assert (Hall' : forall d, In d cd -> TADashboard.count d = Population.mean l).
      { intros d Hd. apply Hall. subst l. apply in_map. exact Hd. }
      destruct (equal_counts_stats cd clicks n Hall') as (H1 & _ & H3 & _).
      fold st in H1, H3.
      split; [exact H1|]. split; [exact H3|].
      intros d Hd. rewrite Hm. apply Hall'. exact Hd.
Qed.

End PeaksAreFew.

(** ** The rows, the insights and the peak of the summary *)

Section SummaryRows.

Local Open Scope R_scope.

Lemma gtb_true_iff (a b : R) : JS.gtb a b = true <-> a > b.
Proof.
  unfold JS.gtb. destruct (Rgt_dec a b); split; intros; try easy.
Qed.

Lemma status_High_iff (s : SummaryReport.Summary) (d : SummaryReport.Datum) :
  SummaryReport.status s d = SummaryReport.High <->
  SummaryReport.count d >= SummaryReport.threshold s.
Proof.
  unfold SummaryReport.status, SummaryReport.high.
  destruct (JS.geb (SummaryReport.count d) (SummaryReport.threshold s)) eqn:E.
  - apply geb_true_iff in E. tauto.
  - apply geb_false_iff in E.
    destruct (JS.gtb (SummaryReport.count d) 0); split; intros H;
      try discriminate; lra.
Qed.

(** X4. The summary is consistent with itself: a row is High exactly when
    its count reaches the threshold, Clear only when it has no click, and
    Normal otherwise; "Key Insights" lists exactly the High rows, in the
    order of the table, and shows the message that no spike was detected
    exactly when no row is High. *)
Theorem key_insights_are_the_high_rows :
  forall (s : SummaryReport.Summary),
    (forall d, SummaryReport.status s d = SummaryReport.High <->
               SummaryReport.count d >= SummaryReport.threshold s)
    /\ (forall d, SummaryReport.status s d = SummaryReport.Clear ->
                  SummaryReport.count d <= 0)
    /\ (forall d, SummaryReport.status s d = SummaryReport.Normal ->
                  0 < SummaryReport.count d < SummaryReport.threshold s)
    /\ (SummaryReport.keyInsights s = None <->
        forall d, In d (SummaryReport.data s) ->
                  SummaryReport.status s d <> SummaryReport.High)
    /\ (forall peaks, SummaryReport.keyInsights s = Some peaks ->
          peaks <> [] /\
          peaks = filter (fun d => SummaryReport.high s d) (SummaryReport.data s) /\
          forall d, In d peaks <->
                    In d (SummaryReport.data s) /\
                    SummaryReport.status s d = SummaryReport.High).
Proof.
  intros s.
  split; [intros d; apply status_High_iff|].
  split; [|split; [|split]].
  - intros d. unfold SummaryReport.status.
    destruct (SummaryReport.high s d); [discriminate|].
    destruct (JS.gtb (SummaryReport.count d) 0) eqn:E; [discriminate|].
    intros _. unfold JS.gtb in E.
    destruct (Rgt_dec (SummaryReport.count d) 0); [discriminate | lra].
  - intros d. unfold SummaryReport.status, SummaryReport.high.
    destruct (JS.geb (SummaryReport.count d) (SummaryReport.threshold s)) eqn:Eh;
      [discriminate|].
    destruct (JS.gtb (SummaryReport.count d) 0) eqn:E; [|discriminate].
    intros _. apply geb_false_iff in Eh. apply gtb_true_iff in E. lra.
  - unfold SummaryReport.keyInsights, JS.some.
    destruct (existsb _ (SummaryReport.data s)) eqn:E.
    + split; [discriminate|]. intros Hno. exfalso.
      apply existsb_exists in E. destruct E as (d & Hd & Hg).
      apply (Hno d Hd). apply status_High_iff. apply geb_true_iff. exact Hg.
    + split; [|reflexivity]. intros _ d Hd Hs.
      apply status_High_iff in Hs. apply geb_true_iff in Hs.
      assert (existsb (fun d => JS.geb (SummaryReport.count d) (SummaryReport.threshold s))
                      (SummaryReport.data s) = true).
      { apply existsb_exists. exists d. split; assumption. }
      congruence.
  - intros peaks. unfold SummaryReport.keyInsights, JS.some.
    destruct (existsb _ (SummaryReport.data s)) eqn:E; [|discriminate].
    intros H. injection H as <-.
    apply existsb_exists in E. destruct E as (d0 & Hd0 & Hg0).
    split; [|split].
    + intros Hnil.
      assert (Hin : In d0 (filter (fun d => JS.geb (SummaryReport.count d)
                                                  (SummaryReport.threshold s))
                                  (SummaryReport.data s))).
      { apply filter_In. split; assumption. }
      rewrite Hnil in Hin. exact Hin.
    + reflexivity.
    + intros d. rewrite filter_In, status_High_iff, geb_true_iff. tauto.
Qed.

Lemma Math_max_permutation (l l' : list R) :
  Permutation l l' -> JS.Math_max l = JS.Math_max l'.
Proof.
  intros Hp.
  destruct l as [|x xs].
  - apply Permutation_nil in Hp. subst l'. reflexivity.
  - destruct l' as [|y ys].
    + apply Permutation_sym, Permutation_nil in Hp. discriminate.
    + destruct (Math_max_cons x xs) as (m & Hm & Hin & Hall).
      destruct (Math_max_cons y ys) as (m' & Hm' & Hin' & Hall').
      rewrite Hm, Hm'. f_equal.
      rewrite Forall_forall in Hall, Hall'.
      assert (m' <= m).
      { apply Hall. eapply Permutation_in; [apply Permutation_sym, Hp | exact Hin']. }
      assert (m <= m').
      { apply Hall'. eapply Permutation_in; [exact Hp | exact Hin]. }
      lra.
Qed.

(** X5. "Peak Confusion" does not depend on the order in which the bins
    arrive. *)
Theorem peak_confusion_ignores_the_order_of_the_bins :
  forall (meta : SummaryReport.SessionMeta)
         (bins bins' : list SummaryReport.BinRecord) (total : R),
    Permutation bins bins' ->
    exists s s',
      SummaryReport.summary (Some meta) bins total = Some s /\
      SummaryReport.summary (Some meta) bins' total = Some s' /\
      SummaryReport.peakConfusion s = SummaryReport.peakConfusion s'.
Proof.
  intros meta bins bins' total Hp.
  destruct (summary_percentages meta bins total) as (s & Hs & Hpc).
  destruct (summary_percentages meta bins' total) as (s' & Hs' & Hpc').
  exists s, s'. split; [exact Hs|]. split; [exact Hs'|].
  unfold SummaryReport.peakConfusion. rewrite Hpc, Hpc'.
  apply Math_max_permutation, Permutation_map, Hp.
Qed.

End SummaryRows.

(** ** More on the notes of the dashboard *)

Section MoreOnNotes.

Local Open Scope Z_scope.

(** A list that is in ascending order of its keys is left as it is. *)
Lemma sort_of_sorted (A : Type) (key : A -> Z) (l : list A) :
  StronglySorted (JS.ascendingBy key) l -> JS.sort (JS.byKey key) l = l.
Proof.
  induction 1 as [|x l Hs IH Hall]; [reflexivity|].
  cbn [JS.sort]. rewrite IH.
  destruct l as [|y l']; [reflexivity|].
  cbn [JS.sort_insert].
  apply Forall_inv in Hall. unfold JS.ascendingBy in Hall. unfold JS.byKey.
  destruct (Z.leb_spec (key x - key y) 0); [reflexivity | lia].
Qed.

Lemma sort_length (A : Type) (cmp : A -> A -> Z) (l : list A) :
  length (JS.sort cmp l) = length l.
Proof.
  assert (Hins : forall x l0, length (JS.sort_insert cmp x l0) = S (length l0)).
  { intros x l0. induction l0 as [|y l0 IH]; [reflexivity|].
    cbn [JS.sort_insert]. destruct (cmp x y <=? 0); cbn [length]; [reflexivity|].
    rewrite IH. reflexivity. }
  induction l as [|x l IH]; [reflexivity|].
  cbn [JS.sort]. rewrite Hins, IH. reflexivity.
Qed.

(** X6. No note is lost or added, and a note shows a negative number of
    minutes exactly when it was created before the start of the session
    (the floor rounds towards minus infinity: one millisecond before the
    start is minute -1). *)
Theorem notes_before_the_start_show_negative_minutes :
  forall (Date_parse : string -> Z) (notes : list TADashboard.NoteRecord)
         (session : TADashboard.Session),
    let start := Date_parse (TADashboard.start_time session) in
    let shown := TADashboard.notesWithTimestamps Date_parse notes session in
    length shown = length notes /\
    Forall (fun x =>
              let created :=
                Date_parse (TADashboard.created_at (TADashboard.note_fields x)) in
              (TADashboard.minutesElapsed x < 0 <-> created < start) /\
              (TADashboard.minutesElapsed x = 0 <-> start <= created < start + 60000))
           shown.
Proof.
  intros Date_parse notes session start shown. split.
  - unfold shown, TADashboard.notesWithTimestamps.
    rewrite sort_length, length_map. reflexivity.
  - assert (Hperm : Permutation shown
                      (map (fun n => {| TADashboard.note_fields := n;
                                        TADashboard.minutesElapsed :=
                                          (Date_parse (TADashboard.created_at n) - start)
                                          / 60000 |}) notes)).
    { unfold shown, TADashboard.notesWithTimestamps. fold start.
      apply (sort_perm TADashboard.minutesElapsed). }
    eapply Permutation_Forall; [apply Permutation_sym, Hperm|].
    apply Forall_forall. intros x Hx.
    apply in_map_iff in Hx. destruct Hx as (n & <- & _).
    cbn [TADashboard.minutesElapsed TADashboard.note_fields].
    set (d := Date_parse (TADashboard.created_at n) - start).
    pose proof (Z.div_mod d 60000 ltac:(lia)) as Hdm.
    pose proof (Z.mod_pos_bound d 60000 ltac:(lia)) as Hmb.
    assert (Hd : Date_parse (TADashboard.created_at n) = d + start) by (unfold d; lia).
    rewrite Hd. split; split; intros; lia.
Qed.

(** X7. Notes that arrive in chronological order (as a server that orders
    them by creation time sends them) are shown in the order in which they
    arrived. *)
Theorem notes_in_chronological_order_keep_their_order :
  forall (Date_parse : string -> Z) (notes : list TADashboard.NoteRecord)
         (session : TADashboard.Session),
    StronglySorted
      (fun a b => Date_parse (TADashboard.created_at a)
                  <= Date_parse (TADashboard.created_at b)) notes ->
    map TADashboard.note_fields
        (TADashboard.notesWithTimestamps Date_parse notes session)
    = notes.
Proof.
  intros Date_parse notes session Hsorted.
  unfold TADashboard.notesWithTimestamps.
  set (start := Date_parse (TADashboard.start_time session)).
  set (annotate := fun n => {| TADashboard.note_fields := n;
                               TADashboard.minutesElapsed :=
                                 (Date_parse (TADashboard.created_at n) - start)
                                 / 60000 |}).
  change (JS.sort _ (map annotate notes))
    with (JS.sort (JS.byKey TADashboard.minutesElapsed) (map annotate notes)).
  rewrite sort_of_sorted.
  - rewrite map_map. apply map_id.
  - induction Hsorted as [|n l Hs IH Hall]; [constructor|].
    cbn [map]. constructor; [exact IH|].
    apply Forall_forall. intros x Hx.
    apply in_map_iff in Hx. destruct Hx as (n' & <- & Hn').
    rewrite Forall_forall in Hall. specialize (Hall n' Hn').
    unfold JS.ascendingBy, annotate. cbn [TADashboard.minutesElapsed].
    apply Z.div_le_mono; lia.
Qed.

End MoreOnNotes.

(** ** More on the join form *)

Section MoreOnTheJoinForm.

Import Handler.
Import JoinSession.

Lemma list_ascii_of_append (a b : string) :
  list_ascii_of_string (a ++ b)%string
  = (list_ascii_of_string a ++ list_ascii_of_string b)%list.
Proof.
  induction a as [|c a IH]; simpl; [reflexivity | rewrite IH; reflexivity].
Qed.

Lemma length_list_ascii (s : string) :
  List.length (list_ascii_of_string s) = String.length s.
Proof.
  induction s as [|c s IH]; simpl; [reflexivity | rewrite IH; reflexivity].
Qed.

(** A stored code is stored again as it is, and a full code swallows what
    is typed behind it. *)
Lemma stored_code_is_stable (c extra : string) :
  (String.length c <= 4)%nat -> isDigits c = true ->
  slice0 4 (strip_non_digits c) = c /\
  (String.length c = 4%nat ->
   slice0 4 (strip_non_digits (c ++ extra)%string) = c).
Proof.
  intros Hlen Hdig. split.
  - rewrite (stored_code_of_digits c Hdig). unfold slice0.
    rewrite firstn_all2 by (rewrite length_list_ascii; exact Hlen).
    apply string_of_list_ascii_of_string.
  - intros H4. unfold slice0, strip_non_digits.
    rewrite list_ascii_of_string_of_list_ascii, list_ascii_of_append, filter_app.
    unfold isDigits in Hdig. rewrite (forallb_filter_id _ _ Hdig).
    rewrite firstn_app.
    rewrite length_list_ascii, H4.
    replace (4 - 4)%nat with 0%nat by lia. rewrite firstn_O, app_nil_r.
    rewrite firstn_all2 by (rewrite length_list_ascii; lia).
    apply string_of_list_ascii_of_string.
Qed.

(** X8. In every state that the form can reach, a change event that
    carries the code itself leaves the code as it is, and once four digits
    are stored nothing that is typed behind them changes the code. *)
Theorem a_full_code_ignores_further_typing :
  forall (w : oracle effect) (evs : list UIEvent),
    let final := fst (steps w initial evs) in
    code (fst (step w final (Change (code final)))) = code final
    /\ (String.length (code final) = 4%nat ->
        forall extra,
          code (fst (step w final (Change (code final ++ extra)%string)))
          = code final).
Proof.
  intros w evs final.
  assert (Hinit : code_ok initial) by (split; [simpl; lia | reflexivity]).
  destruct (steps_invariant w evs Hinit) as [[Hlen Hdig] _]. fold final in Hlen, Hdig.
  split.
  - rewrite step_Change. cbn [fst code].
    apply (stored_code_is_stable (code final) "" Hlen Hdig).
  - intros H4 extra. rewrite step_Change. cbn [fst code].
    apply (stored_code_is_stable (code final) extra Hlen Hdig). exact H4.
Qed.

(** X9. A submission with a code of four characters sends exactly one
    join request, for that code, and never changes the code.  Only an
    answer that is ok reaches [onJoinSuccess], with the body of the answer
    and no error message; an answer that is not ok shows "Invalid or
    expired session code", and a failed request the server error
    message. *)
Theorem submission_outcomes :
  forall (w : oracle effect) (st : State),
    String.length (code st) = 4%nat ->
    let st' := fst (step w st Submit) in
    let effects := snd (step w st Submit) in
    joinRequests effects = [code st]
    /\ code st' = code st
    /\ submitDisabled st = false
    /\ match w _ (fetchJoin (code st)) with
       | Response true data =>
           Observations.joinSuccesses effects = [data] /\ error st' = ""%string
       | Response false _ =>
           Observations.joinSuccesses effects = [] /\
           error st' = "Invalid or expired session code"%string
       | Rejected _ =>
           Observations.joinSuccesses effects = [] /\
           error st' = "Server error — please try again"%string
       end.
Proof.
  intros w st H4 st' effects.
  pose proof (step_Submit w st) as [Hc Hj].
  apply Nat.eqb_eq in H4. rewrite H4 in Hj.
  split; [exact Hj|]. split; [exact Hc|].
  split; [unfold submitDisabled; rewrite H4; reflexivity|].
  subst st' effects.
  unfold step, handler, handleSubmit, trace. rewrite H4. cbn.
  destruct (w _ (fetchJoin (code st))) as [msg|ok data]; cbn.
  - split; reflexivity.
  - destruct ok; cbn; split; reflexivity.
Qed.

Lemma submission_outcomes_witness :
  joinRequests (snd (step MoreSamples.joinWorld MoreSamples.filledForm Submit))
  = ["4821"%string]
  /\ Observations.joinSuccesses
       (snd (step MoreSamples.joinWorld MoreSamples.filledForm Submit))
     = [MoreSamples.joinData]
  /\ error (fst (step MoreSamples.joinWorld MoreSamples.filledForm Submit))
     = ""%string.
Proof.
  destruct (@submission_outcomes MoreSamples.joinWorld MoreSamples.filledForm eq_refl)
    as (H1 & _ & _ & H2 & H3).
  exact (conj H1 (conj H2 H3)).
Defined.

End MoreOnTheJoinForm.

(** ** What a confusion click sends and changes *)

Section ConfusionClick.

Import Handler.
Import StudentView.

Variable trim : string -> string.
Variable session : Session.

(** X10. A confusion click sends at most one click request and at most
    one note.  A note is sent only after the click request was answered
    ok, and it carries the trimmed text, which is not empty. *)
Theorem a_note_follows_an_accepted_click :
  forall (st : State) (w : oracle effect),
    let effects := trace w (handleConfusionClick trim session st) in
    Observations.sentClicks effects
    = (if active st then [(session_id session, anon_id session)] else [])
    /\ (length (Observations.sentNotes effects) <= 1)%nat
    /\ forall n, In n (Observations.sentNotes effects) ->
         active st = true /\
         (exists data,
             w _ (fetchClick (session_id session) (anon_id session))
             = Response true data) /\
         n = trim (note st) /\ n <> ""%string.
Proof.
  intros st w effects. subst effects.
  destruct (active st) eqn:Ha.
  - unfold handleConfusionClick, catchClickError, afterSubmission, trace.
    rewrite Ha. cbn.
    destruct (w _ (fetchClick (session_id session) (anon_id session)))
      as [msg | [|] data] eqn:Ec; cbn.
    + split; [reflexivity|]. split; [lia | intros n []].
    + destruct (String.eqb (trim (note st)) "") eqn:En; cbn.
      * split; [reflexivity|]. split; [lia | intros n []].
      * destruct (w _ (fetchNote (session_id session) (anon_id session)
                                 (trim (note st)))) as [msg | b u]; cbn;
          (split; [reflexivity|]; split; [lia|];
           intros n [<-|[]]; split; [reflexivity|];
           split; [exists data; reflexivity|]; split; [reflexivity|];
           intros Hn; rewrite Hn in En; discriminate).
    + split; [reflexivity|]. split; [lia | intros n []].
  - unfold handleConfusionClick, trace. rewrite Ha. cbn.
    split; [reflexivity|]. split; [lia | intros n []].
Qed.

(** X11. When the click request fails or is refused, the counter is not
    updated, no note is sent and the note that was typed stays; the
    attendee sees one alert, with the message of the server when the
    server gave one. *)
Theorem a_refused_click_changes_nothing :
  forall (st : State) (w : oracle effect),
    active st = true ->
    (forall data, w _ (fetchClick (session_id session) (anon_id session))
                  <> Response true data) ->
    let effects := trace w (handleConfusionClick trim session st) in
    Observations.clickCounts effects = []
    /\ Observations.sentNotes effects = []
    /\ fold_left apply effects st = st
    /\ Observations.studentAlerts effects
       = [match w _ (fetchClick (session_id session) (anon_id session)) with
          | Rejected message => or_default message "Error sending feedback"
          | Response _ data =>
              match click_error data with
              | Some (String c e) => String c e
              | _ => "Server rejected click"%string
              end
          end].
Proof.
  intros st w Ha Hno effects. subst effects.
  unfold handleConfusionClick, catchClickError, afterSubmission, trace.
  rewrite Ha. cbn.
  destruct (w _ (fetchClick (session_id session) (anon_id session)))
    as [msg | [|] data] eqn:Ec; cbn.
  - repeat split.
  - exfalso. apply (Hno data). reflexivity.
  - repeat split.
    destruct (click_error data) as [[|c e]|]; reflexivity.
Qed.

(** X12. When the click is accepted and the note request then fails, the
    click has been sent but the counter on the screen is not updated, no
    feedback is shown and the note stays in the field; the attendee sees
    one alert. *)
Theorem a_failed_note_hides_the_accepted_click :
  forall (st : State) (w : oracle effect) (data : ClickData) (message : string),
    active st = true ->
    w _ (fetchClick (session_id session) (anon_id session)) = Response true data ->
    trim (note st) <> ""%string ->
    w _ (fetchNote (session_id session) (anon_id session) (trim (note st)))
    = Rejected message ->
    let effects := trace w (handleConfusionClick trim session st) in
    Observations.sentClicks effects = [(session_id session, anon_id session)]
    /\ Observations.clickCounts effects = []
    /\ fold_left apply effects st = st
    /\ Observations.studentAlerts effects
       = [or_default message "Error sending feedback"].
Proof.
  intros st w data message Ha Hc Hn Hnote effects. subst effects.
  unfold handleConfusionClick, catchClickError, afterSubmission, trace.
  rewrite Ha. cbn. rewrite Hc. cbn.
  destruct (String.eqb_spec (trim (note st)) "") as [E|E]; [contradiction|].
  cbn. rewrite Hnote. cbn. repeat split.
Qed.


(** X14. The poll of the session changes nothing but the flag [active],
    and changes the flag only when the component is mounted and the
    answer is ok and carries a boolean [is_active]; a poll that fails
    leaves the flag as it was.  A poll never sends a click or a note. *)
Theorem the_poll_only_moves_the_active_flag :
  forall (mounted : bool) (st : State) (w : oracle effect),
    let effects := trace w (check session mounted) in
    let st' := fold_left apply effects st in
    note st' = note st
    /\ showFeedback st' = showFeedback st
    /\ active st'
       = match w _ (fetchSession (session_id session)) with
         | Response true {| is_active := Some b |} => if mounted then b else active st
         | _ => active st
         end
    /\ Observations.sentClicks effects = []
    /\ Observations.sentNotes effects = []
    /\ Observations.clickCounts effects = [].
Proof.
  intros mounted st w effects st'. subst st' effects.
  unfold check, trace. cbn.
  destruct (w _ (fetchSession (session_id session))) as [msg | [|] [[b|]]];
    destruct mounted; cbn; repeat split.
Qed.

End ConfusionClick.

Lemma a_refused_click_changes_nothing_witness :
  let w := MoreSamples.studentWorld (Handler.Response false MoreSamples.refusedClick)
                                    (Handler.Response true tt) in
  let effects :=
    Handler.trace w (StudentView.handleConfusionClick (fun s => s)
                       Samples.studentSession MoreSamples.writing) in
  Observations.clickCounts effects = []
  /\ fold_left StudentView.apply effects MoreSamples.writing = MoreSamples.writing
  /\ Observations.studentAlerts effects = ["Session is not active"%string].
Proof.
  assert (Hno : forall data,
             @MoreSamples.studentWorld (Handler.Response false MoreSamples.refusedClick)
               (Handler.Response true tt) _
               (StudentView.fetchClick
                  (StudentView.session_id Samples.studentSession)
                  (StudentView.anon_id Samples.studentSession))
             <> Handler.Response true data).
  { intros data H. discriminate H. }
  destruct (@a_refused_click_changes_nothing (fun s => s) Samples.studentSession
              MoreSamples.writing _ eq_refl Hno) as (H1 & _ & H3 & H4).
  exact (conj H1 (conj H3 H4)).
Defined.

Lemma a_failed_note_hides_the_accepted_click_witness :
  let w := MoreSamples.studentWorld (Handler.Response true MoreSamples.fourthClick)
                                    (Handler.Rejected "Failed to fetch") in
  let effects :=
    Handler.trace w (StudentView.handleConfusionClick (fun s => s)
                       Samples.studentSession MoreSamples.writing) in
  Observations.sentClicks effects = [(7, 3)%nat]
  /\ Observations.clickCounts effects = []
  /\ fold_left StudentView.apply effects MoreSamples.writing = MoreSamples.writing
  /\ Observations.studentAlerts effects = ["Failed to fetch"%string].
Proof.
  assert (Hn : (fun s : string => s) (StudentView.note MoreSamples.writing)
               <> ""%string) by discriminate.
  exact (@a_failed_note_hides_the_accepted_click (fun s => s) Samples.studentSession
           MoreSamples.writing
           (MoreSamples.studentWorld (Handler.Response true MoreSamples.fourthClick)
                                     (Handler.Rejected "Failed to fetch"))
           MoreSamples.fourthClick "Failed to fetch" eq_refl eq_refl Hn eq_refl).
Defined.


(** ** Generating and starting a session *)

Section GenerateAndStart.

Import Handler.
Import SessionCreator.
Local Open Scope Z_scope.
Local Open Scope string_scope.

Variable parseInt : string -> Z.
Variable Date_getTime : string -> Z.
Variable toISOString : Z -> string.

(** X15. When the create request is answered ok, exactly one session is
    generated: it carries the id and the code of the answer and the fields
    of the form; its start is midnight UTC of the recitation date (not the
    time of the request) and its end is the start plus the duration.  No
    start request is sent and nothing is alerted. *)
Theorem a_generated_session_starts_at_midnight :
  forall (courseName date duration taName : string) (w : oracle effect)
         (data : CreateData),
    w _ (fetchCreate courseName date (parseInt duration) taName) = Response true data ->
    let midnight := Date_getTime (date ++ "T00:00:00Z") in
    Date_getTime (toISOString midnight) = midnight ->
    Date_getTime (toISOString (midnight + parseInt duration * 60000))
    = midnight + parseInt duration * 60000 ->
    let effects :=
      trace w (handleGenerate parseInt Date_getTime toISOString
                 courseName date duration taName) in
    Observations.createRequests effects
    = [(courseName, date, parseInt duration, taName)]
    /\ Observations.startRequests effects = []
    /\ Observations.creatorAlerts effects = []
    /\ exists g starts ends,
         Observations.generatedSessions effects = [Some g] /\
         session_id g = created_id data /\
         session_code g = created_code data /\
         course_name g = courseName /\
         ta_name g = taName /\
         recitation_date g = date /\
         start_time g = Some starts /\
         end_time g = Some ends /\
         Date_getTime starts = midnight /\
         Date_getTime ends - Date_getTime starts = duration_minutes g * 60000.
Proof.
  intros courseName date duration taName w data Hw midnight Hs He effects.
  subst effects. unfold handleGenerate, trace. cbn. rewrite Hw. cbn.
  split; [reflexivity|]. split; [reflexivity|]. split; [reflexivity|].
  eexists. eexists. eexists.
  split; [reflexivity|]. cbn.
  repeat (split; [reflexivity|]).
  fold midnight. rewrite Hs, He. split; [reflexivity | lia].
Qed.

(** X16. When the create request fails or is answered with an error, no
    session is generated: the form stays, and the only thing shown is the
    alert "Error creating session.". *)
Theorem a_failed_creation_generates_nothing :
  forall (courseName date duration taName : string) (w : oracle effect),
    (forall data,
        w _ (fetchCreate courseName date (parseInt duration) taName)
        <> Response true data) ->
    let effects :=
      trace w (handleGenerate parseInt Date_getTime toISOString
                 courseName date duration taName) in
    Observations.generatedSessions effects = []
    /\ createdSessions effects = []
    /\ Observations.startRequests effects = []
    /\ Observations.creatorAlerts effects = ["Error creating session."].
Proof.
  intros courseName date duration taName w Hno effects.
  subst effects. unfold handleGenerate, trace. cbn.
  destruct (w _ (fetchCreate courseName date (parseInt duration) taName))
    as [msg | [|] data] eqn:E; cbn.
  - repeat split.
  - exfalso. apply (Hno data). reflexivity.
  - repeat split.
Qed.

(** X17. "Start Session" sends one start request, for the generated
    session, and none when there is no generated session.  The dashboard is
    opened at most once, and only on an answer that is ok: with the session
    of the answer when the answer has one, else with the generated session.
    In every other case the alert "Error starting session" is shown. *)
Theorem the_dashboard_opens_on_an_accepted_start :
  forall (generatedSession : option BackendSession) (w : oracle effect),
    let effects := trace w (handleStartSession generatedSession) in
    match generatedSession with
    | None => effects = []
    | Some g =>
        Observations.startRequests effects = [session_id g] /\
        Observations.createRequests effects = [] /\
        match w _ (fetchStart (session_id g)) with
        | Response true data =>
            createdSessions effects
            = [match session data with Some s => s | None => g end] /\
            Observations.creatorAlerts effects = []
        | _ =>
            createdSessions effects = [] /\
            Observations.creatorAlerts effects = ["Error starting session"]
        end
    end.
Proof.
  intros [g|] w effects; subst effects; [|reflexivity].
  unfold handleStartSession, trace. cbn.
  destruct (w _ (fetchStart (session_id g))) as [msg | [|] data]; cbn;
    repeat split.
Qed.

End GenerateAndStart.

Lemma a_generated_session_starts_at_midnight_witness :
  let w := MoreSamples.creatorWorld
             (Handler.Response true {| SessionCreator.created_id := 7;
                                       SessionCreator.created_code := "4821" |})
             (Handler.Rejected "") in
  let effects :=
    Handler.trace w
      (SessionCreator.handleGenerate (fun _ => 0%Z) Samples.ofTally Samples.toTally
         "CS 101" "2025-03-01" "60" "Ada") in
  Observations.createRequests effects
  = [("CS 101"%string, "2025-03-01"%string, 0%Z, "Ada"%string)]
  /\ Observations.startRequests effects = []
  /\ Observations.creatorAlerts effects = [].
Proof.
  destruct (@a_generated_session_starts_at_midnight (fun _ => 0%Z)
              Samples.ofTally Samples.toTally
              "CS 101" "2025-03-01" "60" "Ada"
              (MoreSamples.creatorWorld
                 (Handler.Response true {| SessionCreator.created_id := 7;
                                           SessionCreator.created_code := "4821" |})
                 (Handler.Rejected ""))
              {| SessionCreator.created_id := 7;
                 SessionCreator.created_code := "4821" |}
              eq_refl eq_refl eq_refl) as (H1 & H2 & H3 & _).
  exact (conj H1 (conj H2 H3)).
Defined.

Lemma a_failed_creation_generates_nothing_witness :
  let effects :=
    Handler.trace Samples.idleWorld
      (SessionCreator.handleGenerate (fun _ => 60%Z) Samples.ofTally Samples.toTally
         "CS 101" "2025-03-01" "60" "Ada") in
  Observations.generatedSessions effects = []
  /\ SessionCreator.createdSessions effects = []
  /\ Observations.startRequests effects = []
  /\ Observations.creatorAlerts effects = ["Error creating session."%string].
Proof.
  apply (@a_failed_creation_generates_nothing (fun _ => 60%Z)
           Samples.ofTally Samples.toTally
           "CS 101" "2025-03-01" "60" "Ada" Samples.idleWorld).
  intros data H. discriminate H.
Defined.

(** ** The views of the application *)

Section Views.

Import Handler.
Import AppFlows.

Variable Number_toString : nat -> string.

(** A join answer that arrives while the student view is shown mounts
    nothing: the component keeps the state it has. *)
Lemma a_join_while_shown_mounts_nothing (data : JoinAnswer) (st : State)
    (s : StudentView.Session) (b : bool) (n : nat) :
  renderView st = StudentViewOf s b n ->
  studentViewAtMount st (handleJoinSuccess Number_toString data st) = None.
Proof.
  intros H. unfold studentViewAtMount. rewrite H. reflexivity.
Qed.


(** X19. "End Session & View Summary": without a current session nothing
    happens; otherwise one end request is sent for the current session.
    Only an answer that is ok opens the summary, for the id of that
    session; a failed or refused request leaves the whole state as it is
    and shows "Error ending session".  The current session is never
    dropped. *)
Theorem the_summary_opens_on_an_accepted_end :
  forall (st : State) (w : oracle effect),
    let effects := trace w (handleEndSession st) in
    let st' := fold_left apply effects st in
    currentSession st' = currentSession st
    /\ studentSession st' = studentSession st
    /\ match currentSession st with
       | None => effects = [] /\ st' = st
       | Some current =>
           endRequests effects = [SessionCreator.session_id current] /\
           match w _ (fetchEnd (SessionCreator.session_id current)) with
           | Response true _ =>
               view st' = App.ta_summary /\
               summarySessionId st' = Some (SessionCreator.session_id current) /\
               endAlerts effects = []
           | _ =>
               st' = st /\ endAlerts effects = ["Error ending session"%string]
           end
       end.
Proof.
  intros st w effects st'. subst st' effects.
  unfold handleEndSession, trace.
  destruct (currentSession st) as [current|] eqn:Ec; cbn.
  - destruct (w _ (fetchEnd (SessionCreator.session_id current))) as [msg | [|] u];
      cbn; rewrite ?Ec; repeat split.
  - rewrite Ec. repeat split.
Qed.

Lemma dispatch_consistent (r : Running) (cb : Callback) :
  consistent r ->
  consistent {| app := dispatch Number_toString (app r) cb; underWay := underWay r |}.
Proof.
  intros (H1 & H2 & H3 & H4).
  destruct r as [st pending]. cbn [app underWay] in *.
  unfold consistent. cbn [app underWay].
  destruct st as [v cur stu n sid]. cbn [view currentSession studentSession
                                          summarySessionId] in *.
  destruct cb; unfold dispatch, renderView, handleJoinSuccess, handleCreateSession,
      setView, setStudentSession, setStudentClickCount, setCurrentSession;
    cbn [view currentSession studentSession studentClickCount summarySessionId];
    destruct v; try destruct stu; try destruct cur; try destruct sid as [[|id]|];
    cbn [view currentSession studentSession studentClickCount summarySessionId];
    (split; [|split; [|split]]);
    try exact H4;
    try (intros; discriminate);
    try (intros _; discriminate);
    try (intros [?|[?|?]]; try discriminate);
    try (intros ? ?; discriminate);
    auto.
Qed.

End Views.

(** ** No view without its session *)

Section NoViewWithoutItsSession.

Import Handler.
Import AppFlows.

Variable Number_toString : nat -> string.

Lemma rendered_dashboard (st : State) (s : SessionCreator.BackendSession) :
  renderView st = TADashboardOf s -> currentSession st = Some s.
Proof.
  unfold renderView.
  destruct (view st); try discriminate;
    try (destruct (studentSession st); discriminate).
  - destruct (currentSession st); [|discriminate]. intros H. injection H as ->.
    reflexivity.
  - destruct (summarySessionId st) as [[|id]|]; discriminate.
Qed.

Lemma end_answer_applied (pressed st : State) (res : FetchResult unit) :
  currentSession pressed <> None ->
  let st' := fold_left apply (trace (endWorld res) (handleEndSession pressed)) st in
  st' = st \/
  exists id, st' = setView App.ta_summary (setSummarySessionId (Some id) st).
Proof.
  intros Hc. unfold handleEndSession, trace.
  destruct (currentSession pressed) as [current|]; [|congruence].
  cbn. destruct res as [msg | [|] u]; cbn.
  - left. reflexivity.
  - right. eexists. reflexivity.
  - left. reflexivity.
Qed.

Lemma Forall_without (A : Type) (P : A -> Prop) (k : nat) (l : list A) :
  Forall P l -> Forall P (firstn k l ++ skipn (S k) l).
Proof.
  intros H. revert k. induction H as [|x l Hx Hl IH]; intros k.
  - rewrite firstn_nil, skipn_nil. constructor.
  - destruct k as [|k]; cbn [firstn skipn app].
    + destruct l; [constructor | exact Hl].
    + constructor; [exact Hx | apply IH].
Qed.

Lemma react_consistent (r : Running) (ev : Event) :
  consistent r -> consistent (react Number_toString r ev).
Proof.
  intros Hr. destruct ev as [cb | | k res]; cbn [react].
  - apply dispatch_consistent, Hr.
  - destruct (renderView (app r)) eqn:Er; try exact Hr.
    apply rendered_dashboard in Er.
    destruct Hr as (H1 & H2 & H3 & H4).
    unfold consistent. cbn [app underWay].
    split; [exact H1|]. split; [exact H2|]. split.
    + intros _. rewrite Er. discriminate.
    + apply Forall_app. split; [exact H4|]. constructor; [|constructor].
      rewrite Er. discriminate.
  - destruct (nth_error (underWay r) k) as [pressed|] eqn:Ek; [|exact Hr].
    destruct Hr as (H1 & H2 & H3 & H4).
    assert (Hin : In pressed (underWay r)) by (eapply nth_error_In; exact Ek).
    assert (Hp : currentSession pressed <> None).
    { rewrite Forall_forall in H4. apply H4, Hin. }
    assert (Hcur : currentSession (app r) <> None).
    { apply H3. right. right. intros E. rewrite E in Hin. exact Hin. }
    assert (Hrest : Forall (fun p => currentSession p <> None)
                           (firstn k (underWay r) ++ skipn (S k) (underWay r))).
    { apply Forall_without. exact H4. }
    unfold consistent. cbn [app underWay].
    destruct (@end_answer_applied pressed (app r) res Hp) as [E | (id & E)];
      cbv zeta in E; rewrite E.
    + split; [exact H1|]. split; [exact H2|]. split; [intros _; exact Hcur | exact Hrest].
    + cbn. split; [intros; discriminate|]. split; [intros _; discriminate|].
      split; [intros _; exact Hcur | exact Hrest].
Qed.

Lemma after_consistent (evs : list Event) (r : Running) :
  consistent r -> consistent (fold_left (react Number_toString) evs r).
Proof.
  revert r. induction evs as [|ev evs IH]; intros r Hr; [exact Hr|].
  cbn [fold_left]. apply IH, react_consistent, Hr.
Qed.

Lemma start_consistent : consistent start.
Proof.
  unfold consistent, start. cbn.
  split; [intros; discriminate|]. split; [intros; discriminate|].
  split; [|constructor].
  intros [H|[H|H]]; [discriminate | discriminate | congruence].
Qed.

(** X20. Whatever the users do and whenever the answers arrive, the
    application renders nothing in one case only: the summary of a session
    whose id is 0.  The student view always has its session, and the
    dashboard and the summary always have the current session. *)
Theorem only_session_zero_renders_nothing :
  forall (evs : list Event),
    let r := after Number_toString evs in
    renderView (app r) = Nothing ->
    view (app r) = App.ta_summary /\ summarySessionId (app r) = Some 0%nat.
Proof.
  intros evs r Hnothing.
  destruct (@after_consistent evs start start_consistent) as (H1 & H2 & H3 & _).
  fold (after Number_toString evs) in H1, H2, H3. fold r in H1, H2, H3.
  unfold renderView in Hnothing.
  destruct (view (app r)) eqn:Ev; try discriminate.
  - destruct (studentSession (app r)); [discriminate|].
    exfalso. apply H1; reflexivity.
  - destruct (currentSession (app r)); [discriminate|].
    exfalso. apply H3; [left; reflexivity | reflexivity].
  - destruct (summarySessionId (app r)) as [[|id]|]; try discriminate.
    + split; reflexivity.
    + exfalso. apply H2; reflexivity.
Qed.

End NoViewWithoutItsSession.

Lemma only_session_zero_renders_nothing_witness :
  let r := AppFlows.after (fun _ => "0"%string)
             [AppFlows.Fire (AppFlows.CreatorCreated Samples.generated);
              AppFlows.EndPressed;
              AppFlows.EndAnswered 0 (Handler.Response true tt)] in
  AppFlows.renderView (AppFlows.app r) = AppFlows.Nothing
  /\ AppFlows.view (AppFlows.app r) = App.ta_summary
  /\ AppFlows.summarySessionId (AppFlows.app r) = Some 0%nat.
Proof.
  split; [reflexivity|].
  apply (@only_session_zero_renders_nothing (fun _ => "0"%string)
           [AppFlows.Fire (AppFlows.CreatorCreated Samples.generated);
            AppFlows.EndPressed;
            AppFlows.EndAnswered 0 (Handler.Response true tt)]).
  reflexivity.
Defined.

Lemma peak_confusion_ignores_the_order_of_the_bins_witness :
  exists s s',
    SummaryReport.summary (Some MoreSamples.summaryMeta)
      [MoreSamples.sbin 0 1 50; MoreSamples.sbin 1 2 100] 2 = Some s /\
    SummaryReport.summary (Some MoreSamples.summaryMeta)
      [MoreSamples.sbin 1 2 100; MoreSamples.sbin 0 1 50] 2 = Some s' /\
    SummaryReport.peakConfusion s = SummaryReport.peakConfusion s'.
Proof.
  apply (@peak_confusion_ignores_the_order_of_the_bins MoreSamples.summaryMeta
           [MoreSamples.sbin 0 1 50; MoreSamples.sbin 1 2 100]
           [MoreSamples.sbin 1 2 100; MoreSamples.sbin 0 1 50] 2%R).
  apply perm_swap.
Defined.

Lemma notes_in_chronological_order_keep_their_order_witness :
  map TADashboard.note_fields
      (TADashboard.notesWithTimestamps Samples.ofTally MoreSamples.twoNotes
         MoreSamples.tallySession)
  = MoreSamples.twoNotes.
Proof.
  apply (@notes_in_chronological_order_keep_their_order Samples.ofTally
           MoreSamples.twoNotes MoreSamples.tallySession).
  repeat constructor. cbn. lia.
Defined.

(** ** The dashboard after a start without a session in the answer *)

Section StartWithoutSession.

Import Handler.
Local Open Scope Z_scope.
Local Open Scope string_scope.

(** X21. When the start request is answered ok without a session, the
    dashboard receives the session that [handleGenerate] made up, and
    counts the minutes of the notes from midnight UTC of the recitation
    date, whatever the time at which the session was started. *)
Theorem without_a_session_in_the_answer_minutes_count_from_midnight :
  forall (parseInt : string -> Z) (Date_parse : string -> Z) (toISOString : Z -> string)
         (courseName date duration taName : string)
         (w : oracle SessionCreator.effect) (created : SessionCreator.CreateData)
         (app : App.State) (notes : list TADashboard.NoteRecord),
    w _ (SessionCreator.fetchCreate courseName date (parseInt duration) taName)
    = Response true created ->
    w _ (SessionCreator.fetchStart (SessionCreator.created_id created))
    = Response true {| SessionCreator.session := None |} ->
    let midnight := Date_parse (date ++ "T00:00:00Z") in
    Date_parse (toISOString midnight) = midnight ->
    exists g ds,
      Observations.generatedSessions
        (trace w (SessionCreator.handleGenerate parseInt Date_parse toISOString
                    courseName date duration taName)) = [Some g]
      /\ SessionCreator.createdSessions
           (trace w (SessionCreator.handleStartSession (Some g))) = [g]
      /\ App.dashboardSession (App.handleCreateSession g app) = Some ds
      /\ Date_parse (TADashboard.start_time ds) = midnight
      /\ Forall (fun x =>
                   TADashboard.minutesElapsed x
                   = (Date_parse (TADashboard.created_at (TADashboard.note_fields x))
                      - midnight) / 60000)
                (TADashboard.notesWithTimestamps Date_parse notes ds).
Proof.
  intros parseInt Date_parse toISOString courseName date duration taName w created
         app notes Hc Hs midnight Hrt.
  eexists. eexists.
  split.
  { unfold SessionCreator.handleGenerate, trace. cbn. rewrite Hc. cbn. reflexivity. }
  split.
  { apply handleStartSession_fallback. cbn. exact Hs. }
  split; [reflexivity|].
  cbn [TADashboard.start_time]. fold midnight.
  split; [exact Hrt|].
  eapply Permutation_Forall.
  - apply Permutation_sym.
    unfold TADashboard.notesWithTimestamps.
    apply (sort_perm TADashboard.minutesElapsed).
  - apply Forall_forall. intros x Hx.
    apply in_map_iff in Hx. destruct Hx as (n & <- & _).
    cbn [TADashboard.minutesElapsed TADashboard.note_fields TADashboard.start_time].
    fold midnight. rewrite Hrt. reflexivity.
Qed.

End StartWithoutSession.

Lemma without_a_session_in_the_answer_minutes_count_from_midnight_witness :
  let w := MoreSamples.creatorWorld
             (Handler.Response true {| SessionCreator.created_id := 7;
                                       SessionCreator.created_code := "4821" |})
             (Handler.Response true {| SessionCreator.session := None |}) in
  exists g ds,
    SessionCreator.createdSessions
      (Handler.trace w (SessionCreator.handleStartSession (Some g))) = [g]
    /\ App.dashboardSession (App.handleCreateSession g App.initial) = Some ds
    /\ Samples.ofTally (TADashboard.start_time ds) = 20%Z.
Proof.
  destruct (@without_a_session_in_the_answer_minutes_count_from_midnight
              (fun _ => 60%Z) Samples.ofTally Samples.toTally
              "CS 101" "2025-03-01" "60" "Ada"
              (MoreSamples.creatorWorld
                 (Handler.Response true {| SessionCreator.created_id := 7;
                                           SessionCreator.created_code := "4821" |})
                 (Handler.Response true {| SessionCreator.session := None |}))
              {| SessionCreator.created_id := 7;
                 SessionCreator.created_code := "4821" |}
              App.initial MoreSamples.twoNotes eq_refl eq_refl eq_refl)
    as (g & ds & _ & H2 & H3 & H4 & _).
  exists g, ds. exact (conj H2 (conj H3 H4)).
Defined.

(** ** The same bins on the dashboard and in the summary *)

Section DashboardAndSummary.

Local Open Scope R_scope.

(** X22. For the same bins the summary and the dashboard compute the same
    threshold and flag the same bins: the rows marked High in the summary
    are the peak bins of the dashboard, in the same order. *)
Theorem the_summary_flags_the_peaks_of_the_dashboard :
  forall (Click : Type) (meta : SummaryReport.SessionMeta)
         (bins : list SummaryReport.BinRecord) (total : R)
         (clicks : list Click) (totalStudents : nat),
    let st := TADashboard.stats
                (TADashboard.chartData (map SameBins.onDashboard bins))
                clicks totalStudents in
    exists s,
      SummaryReport.summary (Some meta) bins total = Some s /\
      SummaryReport.threshold s = TADashboard.threshold st /\
      SameBins.highCounts s = SameBins.peakCounts st /\
      (SummaryReport.keyInsights s = None <-> TADashboard.peakBins st = []).
Proof.
  intros Click meta bins total clicks n st.
  destruct (summary_threshold meta bins total) as (s & Hs & Hc & Ht).
  exists s. split; [exact Hs|].
  assert (Hcounts : map TADashboard.count
                        (TADashboard.chartData (map SameBins.onDashboard bins))
                    = map SummaryReport.click_count bins).
  { rewrite counts_of_chartData, map_map. reflexivity. }
  assert (Hth : SummaryReport.threshold s = TADashboard.threshold st).
  { rewrite Ht. subst st. cbn [TADashboard.stats TADashboard.threshold].
    rewrite Hcounts. reflexivity. }
  split; [exact Hth|].
  assert (Hdata : SummaryReport.data s
                  = map (fun b => {| SummaryReport.minute := SummaryReport.bin_start_minute b;
                                     SummaryReport.label :=
                                       (SummaryReport.bin_start_minute b,
                                        SummaryReport.bin_end_minute b);
                                     SummaryReport.count := SummaryReport.click_count b;
                                     SummaryReport.uniqueStudents :=
                                       SummaryReport.unique_students b;
                                     SummaryReport.percentage :=
                                       SummaryReport.percentage_of_bin b |}) bins).
  { cbn in Hs. injection Hs as <-. reflexivity. }
  assert (Hflags : SameBins.highCounts s = SameBins.peakCounts st).
  { unfold SameBins.highCounts, SameBins.peakCounts, SummaryReport.high.
    change (TADashboard.peakBins st)
      with (filter (fun d => JS.geb (TADashboard.count d) (TADashboard.threshold st))
                   (TADashboard.chartData (map SameBins.onDashboard bins))).
    rewrite Hdata, Hth. unfold TADashboard.chartData.
    generalize (TADashboard.threshold st) as t. intros t. clear.
    induction bins as [|b bins IH]; [reflexivity|].
    cbn [map filter SummaryReport.count TADashboard.count SameBins.onDashboard
         TADashboard.click_count].
    destruct (JS.geb (SummaryReport.click_count b) t); cbn [map]; rewrite IH;
      reflexivity. }
  split; [exact Hflags|].
  unfold SameBins.highCounts, SameBins.peakCounts in Hflags.
  unfold SummaryReport.keyInsights, JS.some.
  destruct (existsb _ (SummaryReport.data s)) eqn:E.
  - split; [discriminate|]. intros Hnil. exfalso.
    apply existsb_exists in E. destruct E as (d & Hd & Hg).
    rewrite Hnil in Hflags. cbn in Hflags.
    assert (Hin : In d (filter (fun d0 => SummaryReport.high s d0) (SummaryReport.data s))).
    { apply filter_In. split; assumption. }
    apply (in_map SummaryReport.count) in Hin. rewrite Hflags in Hin. exact Hin.
  - split; [|reflexivity]. intros _.
    assert (Hf : filter (fun d => SummaryReport.high s d) (SummaryReport.data s) = []).
    { destruct (filter (fun d => SummaryReport.high s d) (SummaryReport.data s))
        as [|d l] eqn:Ef; [reflexivity|].
      assert (Hin : In d (filter (fun d => SummaryReport.high s d) (SummaryReport.data s)))
        by (rewrite Ef; left; reflexivity).
      apply filter_In in Hin. destruct Hin as [Hd Hg].
      assert (Hex : existsb (fun d0 => JS.geb (SummaryReport.count d0)
                                               (SummaryReport.threshold s))
                            (SummaryReport.data s) = true).
      { apply existsb_exists. exists d. split; assumption. }
      assert (Habs : true = false) by exact (eq_trans (eq_sym Hex) E).
      discriminate Habs. }
    rewrite Hf in Hflags.
    destruct (TADashboard.peakBins st); [reflexivity | discriminate Hflags].
Qed.

End DashboardAndSummary.

